(** * SpriteCleaner: background removal CLI and comparison builder

    A shallow embedding of [remove_background.py] and
    [comparison/compare_images.py], with the properties of the two tools
    stated over it.

    The scripts work on the file system, print to standard output and call
    two libraries (rembg for the segmentation model, Pillow for drawing).
    The file system is a finite map from paths to nodes, the libraries are
    parameters of the development, and a script is a computation in a state
    and exception monad over the world it runs in. *)

From Stdlib Require Import ZArith Ascii String List Lia.
From stdpp Require Import base option list gmap strings fin_maps.

Local Open Scope string_scope.
Local Open Scope list_scope.
Local Open Scope Z_scope.

(** ** Strings *)

Module Str.

Definition dquote : string := String (ascii_of_nat 34) EmptyString.

(** [str.rfind(c)]: index of the last occurrence of [c]. *)
Fixpoint rfind (c : ascii) (s : string) : option nat :=
  match s with
  | EmptyString => None
  | String a s' =>
      match rfind c s' with
      | Some i => Some (S i)
      | None => if Ascii.eqb a c then Some 0%nat else None
      end
  end.

Definition lower_ascii (c : ascii) : ascii :=
  let n := nat_of_ascii c in
  if (65 <=? n)%nat && (n <=? 90)%nat then ascii_of_nat (n + 32) else c.

Definition upper_ascii (c : ascii) : ascii :=
  let n := nat_of_ascii c in
  if (97 <=? n)%nat && (n <=? 122)%nat then ascii_of_nat (n - 32) else c.

Definition is_alpha (c : ascii) : bool :=
  let n := nat_of_ascii c in
  ((65 <=? n)%nat && (n <=? 90)%nat) || ((97 <=? n)%nat && (n <=? 122)%nat).

(** [str.lower()] on the ASCII range. *)
Fixpoint lower (s : string) : string :=
  match s with
  | EmptyString => EmptyString
  | String a s' => String (lower_ascii a) (lower s')
  end.

(** [str.replace(a, b)] for single characters. *)
Fixpoint replace_char (a b : ascii) (s : string) : string :=
  match s with
  | EmptyString => EmptyString
  | String c s' => String (if Ascii.eqb c a then b else c) (replace_char a b s')
  end.

(** Text made of ASCII characters only, as the template names are.  The
    case functions of this module are those of Python on such text; on
    other text Python follows the Unicode case tables, which are not
    modelled. *)
Fixpoint is_ascii (s : string) : bool :=
  match s with
  | EmptyString => true
  | String c s' => (nat_of_ascii c <? 128)%nat && is_ascii s'
  end.

(** [str.title()] on ASCII text: a letter that follows a letter is
    lowercased, any other letter is uppercased. *)
Fixpoint title_from (prev_cased : bool) (s : string) : string :=
  match s with
  | EmptyString => EmptyString
  | String c s' =>
      String (if prev_cased then lower_ascii c else upper_ascii c)
             (title_from (is_alpha c) s')
  end.

Definition title (s : string) : string := title_from false s.

(** [s.endswith(suf)] *)
Definition ends_with (suf s : string) : bool :=
  let n := String.length s in
  let k := String.length suf in
  (k <=? n)%nat && String.eqb (substring (n - k) k s) suf.

Fixpoint starts_with (pre s : string) : bool :=
  match pre, s with
  | EmptyString, _ => true
  | String a pre', String b s' => Ascii.eqb a b && starts_with pre' s'
  | String _ _, EmptyString => false
  end.

(** [s.count(pat)] counted at every start position (occurrences may
    overlap); for the patterns used below no two occurrences overlap. *)
Fixpoint occurrences (pat s : string) : nat :=
  match s with
  | EmptyString => if starts_with pat EmptyString then 1%nat else 0%nat
  | String _ s' =>
      ((if starts_with pat s then 1 else 0) + occurrences pat s')%nat
  end.

End Str.

(** ** Paths ([pathlib.Path])

    A path is the list of its components; [[]] is the current directory. *)

Abbreviation path := (list string).

Module Path.

(** [p / name] *)
Definition join (p : path) (name : string) : path := p ++ [name].

(** [p.name] *)
Definition name (p : path) : string := List.last p "".

(** [p.parent] *)
Definition parent (p : path) : path := removelast p.

Definition has_suffix (nm : string) : option nat :=
  match Str.rfind "."%char nm with
  | Some i =>
      if (0 <? i)%nat && (i <? String.length nm - 1)%nat then Some i else None
  | None => None
  end.

(** [PurePath.suffix] on a file name: from the last dot, when that dot is
    neither the first nor the last character. *)
Definition suffix_of (nm : string) : string :=
  match has_suffix nm with
  | Some i => substring i (String.length nm - i) nm
  | None => ""
  end.

(** [PurePath.stem] on a file name. *)
Definition stem_of (nm : string) : string :=
  match has_suffix nm with
  | Some i => substring 0 i nm
  | None => nm
  end.

Definition suffix (p : path) : string := suffix_of (name p).
Definition stem (p : path) : string := stem_of (name p).

End Path.

(** The name every output of the tools is derived under:
    [f"{stem}_no_bg.png"]. *)
Definition no_bg_name (stem : string) : string := stem +:+ "_no_bg.png".

(** ** The world a script runs in *)

Abbreviation bytes := (list Byte.byte).

Inductive node :=
| File (content : bytes)
| Dir
| Special.   (* exists, but is neither a regular file nor a directory *)

(** Model identifiers accepted by [-m/--model] ([choices=[...]]). *)
Inductive model_id :=
| U2net | U2netp | U2net_human_seg | Isnet_general_use
| Birefnet_general | Birefnet_general_lite | Silueta.

Definition model_name (m : model_id) : string :=
  match m with
  | U2net => "u2net"
  | U2netp => "u2netp"
  | U2net_human_seg => "u2net_human_seg"
  | Isnet_general_use => "isnet-general-use"
  | Birefnet_general => "birefnet-general"
  | Birefnet_general_lite => "birefnet-general-lite"
  | Silueta => "silueta"
  end.

Definition model_choices : list model_id :=
  [U2net; U2netp; U2net_human_seg; Isnet_general_use;
   Birefnet_general; Birefnet_general_lite; Silueta].

Inductive error :=
| FileNotFoundError | IsADirectoryError | NotADirectoryError | FileExistsError
| OSError | ModelLoadError | InferenceError | UnidentifiedImageError
| ValueError.

Inductive exn :=
| SystemExit (code : Z)       (* [sys.exit(code)]; not an [Exception] *)
| Error (e : error).          (* any subclass of [Exception] *)

(** Lines the two scripts print, one constructor per [print] that depends
    on the run. *)
Inductive message :=
| MsgProcessing (input : path)
| MsgSaved (output : path)
| MsgErrorProcessing (input : path) (e : error)
| MsgNoPngFound (folder : path)
| MsgFound (n : nat)
| MsgModel (m : model_id)
| MsgRule
| MsgProcessingComplete
| MsgFileDone (input_name output_name : string)
| MsgFileError (input_name : string) (e : error)
| MsgSuccess (n : nat)
| MsgFailed (n : nat)
| MsgInputMissing (input : path)
| MsgNotPng
| MsgNeitherFileNorDir (input : path)
| MsgWarnInputMissing (template_name : string)
| MsgWarnOutputMissing (output_name : string)
| MsgAdded (template_name : string)
| MsgGridSaved (comparison_output : path)
| MsgHtmlSaved (html_output : path).

Inductive event :=
| Print (m : message)
| Infer (m : model_id) (data : bytes)   (* the model a prediction ran with *)
| Wrote (p : path) (data : bytes).      (* a completed [open(p, 'wb').write] *)

Record world := World {
  files : gmap path node;
  trace : list event          (* oldest first *)
}.

Inductive outcome (A : Type) :=
| Ret (a : A)
| Exc (e : exn).
Arguments Ret {A} a.
Arguments Exc {A} e.

(** A script: runs in a world, ends normally or with an exception, and
    leaves the world it reached (effects made before a [raise] stay). *)
Definition M (A : Type) : Type := world → outcome A * world.

#[export] Instance M_ret : MRet M := λ A a w, (Ret a, w).
#[export] Instance M_bind : MBind M := λ A B f m w,
  match m w with
  | (Ret a, w') => f a w'
  | (Exc e, w') => (Exc e, w')
  end.

Definition raise {A} (e : exn) : M A := λ w, (Exc e, w).

(** [try: body  except Exception as e: handler(e)] *)
Definition try_except {A} (body : M A) (handler : error → M A) : M A := λ w,
  match body w with
  | (Exc (Error e), w') => handler e w'
  | r => r
  end.

Definition get_files : M (gmap path node) := λ w, (Ret (files w), w).
Definition put_files (fs : gmap path node) : M unit := λ w,
  (Ret tt, World fs (trace w)).
Definition emit (ev : event) : M unit := λ w,
  (Ret tt, World (files w) (trace w ++ [ev])).
Definition print (m : message) : M unit := emit (Print m).
Definition sys_exit {A} (code : Z) : M A := raise (SystemExit code).

(** The status the interpreter exits with: 0 after a normal end, the
    argument of [sys.exit], 1 after an exception nobody caught. *)
Definition exit_status {A} (o : outcome A) : Z :=
  match o with
  | Ret _ => 0
  | Exc (SystemExit n) => n
  | Exc (Error _) => 1
  end.

(** ** File system operations *)

Definition stat (fs : gmap path node) (p : path) : option node :=
  match p with
  | [] => Some Dir
  | _ => fs !! p
  end.

Definition exists_ (fs : gmap path node) (p : path) : bool :=
  match stat fs p with Some _ => true | None => false end.

Definition is_file (fs : gmap path node) (p : path) : bool :=
  match stat fs p with Some (File _) => true | _ => false end.

Definition is_dir (fs : gmap path node) (p : path) : bool :=
  match stat fs p with Some Dir => true | _ => false end.

(** What [open(p, 'rb').read()] gives: the content of a regular file, or
    the error raised. *)
Definition read_result (fs : gmap path node) (p : path) : error + bytes :=
  match stat fs p with
  | Some (File b) => inr b
  | Some Dir => inl IsADirectoryError
  | Some Special => inl OSError
  | None => inl FileNotFoundError
  end.

Definition read_bytes (p : path) : M bytes :=
  fs ← get_files;
  match read_result fs p with
  | inr b => mret b
  | inl e => raise (Error e)
  end.

(** The error of [open(p, 'wb')], if any: the parent must be a directory,
    the target a regular file or absent. *)
Definition write_error (fs : gmap path node) (p : path) : option error :=
  match stat fs p with
  | Some Dir => Some IsADirectoryError
  | Some Special => Some OSError
  | _ =>
      match stat fs (Path.parent p) with
      | Some Dir => None
      | Some _ => Some NotADirectoryError
      | None => Some FileNotFoundError
      end
  end.

(** [open(p, 'wb').write(data)] *)
Definition write_bytes (p : path) (data : bytes) : M unit :=
  fs ← get_files;
  match write_error fs p with
  | None => put_files (<[p := File data]> fs) ;; emit (Wrote p data)
  | Some e => raise (Error e)
  end.

(** [Path.mkdir(parents=True, exist_ok=True)], on the reversed path: an
    existing directory is kept, any other existing node is an error, a
    missing parent is created first. *)
Fixpoint mkdir_rev (fs : gmap path node) (rp : path) : error + gmap path node :=
  match rp with
  | [] => inr fs
  | _ :: rparent =>
      match fs !! rev rp with
      | Some Dir => inr fs
      | Some _ => inl FileExistsError
      | None =>
          match stat fs (rev rparent) with
          | Some Dir => inr (<[rev rp := Dir]> fs)
          | Some _ => inl NotADirectoryError
          | None =>
              match mkdir_rev fs rparent with
              | inr fs' => inr (<[rev rp := Dir]> fs')
              | inl e => inl e
              end
          end
      end
  end.

Definition mkdir_parents (p : path) : M unit :=
  fs ← get_files;
  match mkdir_rev fs (rev p) with
  | inr fs' => put_files fs'
  | inl e => raise (Error e)
  end.

(** [fnmatch(name, '*.png')], case-sensitive as on POSIX. *)
Definition matches_png (nm : string) : bool := Str.ends_with ".png" nm.

Definition is_png_child (folder p : path) : bool :=
  bool_decide (p = Path.join folder (Path.name p)) && matches_png (Path.name p).

(** [list(folder.glob('*.png'))]: the entries of [folder] whose name ends
    in [.png], in the order the directory yields them. *)
Definition glob_png (fs : gmap path node) (folder : path) : list path :=
  filter (λ p, is_png_child folder p = true) (map fst (map_to_list fs)).

(** ** The rembg library

    The segmentation models are outside the repository.  [load_model] tells
    whether a model can be loaded ([new_session] raises otherwise) and
    [segment] is the prediction of a loaded model on the bytes of an image
    ([None]: the call raises, as on bytes that are no image). *)

Record rembg := Rembg {
  load_model : model_id → bool;
  segment : model_id → bytes → option bytes
}.

Record session := Session { session_model : model_id }.

Section BackgroundRemover.

Variable lib : rembg.

(** [rembg.new_session(model)] *)
Definition new_session (m : model_id) : M session :=
  if load_model lib m then mret (Session m) else raise (Error ModelLoadError).

(** [rembg.remove(data, session=None)]: without a session the library
    opens one for its default model, u2net. *)
Definition remove (data : bytes) (s : option session) : M bytes :=
  s ← match s with
      | Some s => mret s
      | None => new_session U2net
      end;
  emit (Infer (session_model s) data) ;;
  match segment lib (session_model s) data with
  | Some out => mret out
  | None => raise (Error InferenceError)
  end.

(** [remove_background_from_file(input_path, output_path, model)] *)
Definition remove_background_from_file
    (input_path output_path : path) (model : model_id) : M bool :=
  try_except
    (print (MsgProcessing input_path) ;;
     input_data ← read_bytes input_path;
     output_data ← remove input_data None;
     write_bytes output_path output_data ;;
     print (MsgSaved output_path) ;;
     mret true)
    (λ e, print (MsgErrorProcessing input_path e) ;; mret false).

(** The body of [for png_file in png_files:]; the result is the pair
    [(success_count, fail_count)] after the iteration. *)
Definition process_png
    (s : session) (output_path png_file : path) (counts : nat * nat)
    : M (nat * nat) :=
  let output_file := Path.join output_path (no_bg_name (Path.stem png_file)) in
  try_except
    (input_data ← read_bytes png_file;
     output_data ← remove input_data (Some s);
     write_bytes output_file output_data ;;
     print (MsgFileDone (Path.name png_file) (Path.name output_file)) ;;
     mret (S (fst counts), snd counts))
    (λ e, print (MsgFileError (Path.name png_file) e) ;;
          mret (fst counts, S (snd counts))).

Fixpoint process_png_files
    (s : session) (output_path : path) (png_files : list path)
    (counts : nat * nat) : M (nat * nat) :=
  match png_files with
  | [] => mret counts
  | png_file :: rest =>
      counts' ← process_png s output_path png_file counts;
      process_png_files s output_path rest counts'
  end.

(** Lines 75 to 101: the counters, the loop and the summary. *)
Definition process_and_report
    (s : session) (output_path : path) (png_files : list path) : M unit :=
  '(success_count, fail_count) ← process_png_files s output_path png_files (0%nat, 0%nat);
  print MsgRule ;;
  print MsgProcessingComplete ;;
  print (MsgSuccess success_count) ;;
  print (MsgFailed fail_count).

(** [remove_background_from_folder(input_folder, output_folder, model)] *)
Definition remove_background_from_folder
    (input_folder output_folder : path) (model : model_id) : M unit :=
  mkdir_parents output_folder ;;
  fs ← get_files;
  let png_files := glob_png fs input_folder in
  match png_files with
  | [] => print (MsgNoPngFound input_folder)
  | _ =>
      print (MsgFound (length png_files)) ;;
      print (MsgModel model) ;;
      print MsgRule ;;
      s ← new_session model;
      process_and_report s output_folder png_files
  end.

Record args := Args {
  arg_input : path;
  arg_output : path;
  arg_model : model_id
}.

Definition when (b : bool) (m : M unit) : M unit := if b then m else mret tt.

(** The output path of single-file mode (lines 166 to 168). *)
Definition single_file_output (fs : gmap path node) (input_path output : path) : path :=
  if is_dir fs output
  then Path.join output (no_bg_name (Path.stem input_path))
  else output.

(** [main()], after [parser.parse_args()]. *)
Definition main (a : args) : M unit :=
  let input_path := arg_input a in
  fs ← get_files;
  when (negb (exists_ fs input_path))
       (print (MsgInputMissing input_path) ;; sys_exit 1) ;;
  if is_file fs input_path then
    when (negb (String.eqb (Str.lower (Path.suffix input_path)) ".png"))
         (print MsgNotPng ;; sys_exit 1) ;;
    let output_path := single_file_output fs input_path (arg_output a) in
    remove_background_from_file input_path output_path (arg_model a) ;;
    mret tt
  else if is_dir fs input_path then
    remove_background_from_folder input_path (arg_output a) (arg_model a)
  else
    print (MsgNeitherFileNorDir input_path) ;; sys_exit 1.

(** Running the script: the exit status and the world it leaves. *)
Definition run (a : args) (w : world) : Z * world :=
  let '(o, w') := main a w in (exit_status o, w').

End BackgroundRemover.

(** Projections of a trace. *)
Definition printed (t : list event) : list message :=
  omap (λ ev, match ev with Print m => Some m | _ => None end) t.

Definition inferences (t : list event) : list model_id :=
  omap (λ ev, match ev with Infer m _ => Some m | _ => None end) t.

Definition written (t : list event) : list path :=
  omap (λ ev, match ev with Wrote p _ => Some p | _ => None end) t.


(** ** base64

    [base64.b64encode(data).decode('utf-8')]: three bytes give four
    characters of the alphabet, a last group of one or two bytes is padded
    with [=]. *)

Module Base64.

Definition alphabet : string :=
  "ABCDEFGHIJKLMNOPQRSTUVWXYZabcdefghijklmnopqrstuvwxyz0123456789+/".

Definition digit (n : N) : ascii :=
  match String.get (N.to_nat n) alphabet with
  | Some c => c
  | None => "="%char
  end.

Definition sextets (a b c : Byte.byte) : N * N * N * N :=
  let n := (N.shiftl (Byte.to_N a) 16 + N.shiftl (Byte.to_N b) 8 + Byte.to_N c)%N in
  (N.shiftr n 18,
   N.land (N.shiftr n 12) 63,
   N.land (N.shiftr n 6) 63,
   N.land n 63)%N.

Fixpoint b64encode (data : bytes) : string :=
  match data with
  | [] => EmptyString
  | [a] =>
      let '(s0, s1, _, _) := sextets a Byte.x00 Byte.x00 in
      String (digit s0) (String (digit s1) "==")
  | [a; b] =>
      let '(s0, s1, s2, _) := sextets a b Byte.x00 in
      String (digit s0) (String (digit s1) (String (digit s2) "="))
  | a :: b :: c :: rest =>
      let '(s0, s1, s2, s3) := sextets a b c in
      String (digit s0) (String (digit s1) (String (digit s2)
        (String (digit s3) (b64encode rest))))
  end.

(** The characters a payload is made of. *)
Definition is_b64_char (c : ascii) : bool :=
  Str.is_alpha c
  || (let n := nat_of_ascii c in (48 <=? n)%nat && (n <=? 57)%nat)
  || Ascii.eqb c "+" || Ascii.eqb c "/" || Ascii.eqb c "=".

Fixpoint all_chars (P : ascii → bool) (s : string) : bool :=
  match s with
  | EmptyString => true
  | String c s' => P c && all_chars P s'
  end.

End Base64.

(** ** The Pillow library

    Images are decoded, scaled, drawn on and encoded by Pillow.  A decoded
    image has a size, a mode (the string [im.mode]: "RGB", "RGBA", "P",
    "L", ...) and pixel data; a canvas is the blank image it was created as
    and the drawing operations applied to it since, in order. *)

Record image := Image {
  width : Z;
  height : Z;
  mode : string;
  pixels : bytes
}.

(** [paste(im, box, mask)] reads the coverage of each pixel from the mask
    and takes a mask of one of these modes only: a bilevel or grey image,
    or one with an alpha band.  With any other mask ("RGB", "P", "I", ...)
    it raises [ValueError('bad transparency mask')]. *)
Definition mask_modes : list string := ["1"; "L"; "LA"; "RGBA"; "RGBa"].

Definition usable_as_mask (im : image) : bool :=
  bool_decide (mode im ∈ mask_modes).

Inductive font :=
| TrueType (file : string) (size : Z)
| DefaultFont.

Inductive canvas :=
| Canvas (w h : Z) (color : string) (ops : list draw_op)
with draw_op :=
| OpText (x y : Z) (text fill : string) (f : font)
| OpRectangle (x0 y0 x1 y1 : Z) (fill outline : option string) (line_width : Z)
| OpPaste (im : image) (x y : Z)          (* [paste(im, (x, y))] *)
| OpPasteMasked (im : image) (x y : Z)    (* [paste(im, (x, y), im)] *)
| OpPasteCanvas (c : canvas) (x y : Z).

Definition canvas_size (c : canvas) : Z * Z :=
  match c with Canvas w h _ _ => (w, h) end.

Definition canvas_ops (c : canvas) : list draw_op :=
  match c with Canvas _ _ _ ops => ops end.

(** [Image.new('RGB', (w, h), color)] *)
Definition image_new (w h : Z) (color : string) : canvas := Canvas w h color [].

(** One call on [ImageDraw.Draw(c)] or [c.paste]. *)
Definition draw (c : canvas) (op : draw_op) : canvas :=
  match c with Canvas w h color ops => Canvas w h color (ops ++ [op]) end.

Record pillow := Pillow {
  decode : bytes → option image;           (* [None]: not an image *)
  thumbnail : image → Z * Z → image;       (* [im.thumbnail(size, LANCZOS)] *)
  font_file : string → bool;               (* can [truetype] find the file *)
  textbbox : font → string → Z * Z * Z * Z;  (* [draw.textbbox((0, 0), text, font)] *)
  encode_png : canvas → bytes              (* the bytes [save(_, 'PNG')] writes *)
}.

(** ** The comparison builder ([comparison/compare_images.py]) *)

(** [template_images], the same literal in both generators. *)
Definition template_images : list string :=
  ["black_cocker_spaniel_1.png";
   "border_collie_1.png";
   "german_sheperd_1.png";
   "golden_retriever_1.png";
   "siberian_husky_1.png"].

(** The settings of [create_comparison_grid]. *)
Definition img_width : Z := 300.
Definition img_height : Z := 300.
Definition padding : Z := 20.
Definition title_height : Z := 60.
Definition label_height : Z := 40.
Definition checker_size : Z := 20.

Definition grid_width : Z := img_width * 2 + padding * 3.
Definition grid_height : Z :=
  (img_height + label_height + padding) * 5 + title_height + padding.

(** [range(0, stop, step)] for a positive step. *)
Definition range_step (stop step : Z) : list Z :=
  map (λ k, Z.of_nat k * step) (seq 0 (Z.to_nat ((stop + step - 1) / step))).

(** [Path(template_name).stem.replace('_', ' ').title()] *)
Definition pair_label (template_name : string) : string :=
  Str.title (Str.replace_char "_" " " (Path.stem [template_name])).

(** The two files of a pair. *)
Definition pair_input (input_path : path) (template_name : string) : path :=
  Path.join input_path template_name.

Definition pair_output (output_path : path) (template_name : string) : path :=
  Path.join output_path (no_bg_name (Path.stem [template_name])).

Section ComparisonBuilder.

Variable pil : pillow.

(** [ImageFont.truetype(file, size)] *)
Definition truetype (file : string) (size : Z) : option font :=
  if font_file pil file then Some (TrueType file size) else None.

(** The three fonts, with the fallback of the bare [except:]. *)
Definition load_fonts : font * font * font :=
  match truetype "arial.ttf" 36, truetype "arial.ttf" 20, truetype "arial.ttf" 16 with
  | Some title_font, Some header_font, Some label_font =>
      (title_font, header_font, label_font)
  | _, _, _ => (DefaultFont, DefaultFont, DefaultFont)
  end.

Definition text_width (f : font) (text : string) : Z :=
  let '(x0, _, x1, _) := textbbox pil f text in x1 - x0.

(** [Image.open(p)] followed by the first use of the pixels. *)
Definition image_open (p : path) : M image :=
  data ← read_bytes p;
  match decode pil data with
  | Some im => mret im
  | None => raise (Error UnidentifiedImageError)
  end.

(** The checkered background of an 'after' image (lines 95 to 102). *)
Definition checker_cells : list (Z * Z) :=
  i ← range_step img_width checker_size;
  j ← range_step img_height checker_size;
  if (i / checker_size + j / checker_size) mod 2 =? 0 then [(i, j)] else [].

Definition checker_background : canvas :=
  foldl (λ bg '(i, j),
           draw bg (OpRectangle i j (i + checker_size) (j + checker_size)
                                (Some "#E0E0E0") None 1))
        (image_new img_width img_height "white") checker_cells.

(** Lines 104 to 125: what one present pair draws, with the row cursor at
    [y_pos], when the 'after' image can be its own mask. *)
Definition row_ops (label_font : font) (template_name : string)
    (before_img after_img : image) (y_pos : Z) : list draw_op :=
  let before_x := padding + (img_width - width before_img) / 2 in
  let before_y := y_pos + padding + (img_height - height before_img) / 2 in
  let checker_bg :=
    draw checker_background
         (OpPasteMasked after_img
            ((img_width - width after_img) / 2)
            ((img_height - height after_img) / 2)) in
  let label := pair_label template_name in
  let label_y := y_pos + padding + img_height + 10 in
  let label_width := text_width label_font label in
  [ OpPaste before_img before_x before_y;
    OpPasteCanvas checker_bg (padding * 2 + img_width) (y_pos + padding);
    OpRectangle padding (y_pos + padding)
                (padding + img_width) (y_pos + padding + img_height)
                None (Some "#CCCCCC") 2;
    OpRectangle (padding * 2 + img_width) (y_pos + padding)
                (padding * 2 + img_width * 2) (y_pos + padding + img_height)
                None (Some "#CCCCCC") 2;
    OpText ((grid_width - label_width) / 2) label_y label "black" label_font ].

(** One iteration of [for idx, template_name in enumerate(template_images)];
    the state is the canvas and [y_pos].  Line 113 pastes the 'after' image
    on its checkered background with the image itself as the mask, which
    raises for an image whose mode is not a mask mode; the canvas is local
    to the call, so what line 112 pasted on it before is lost with it. *)
Definition grid_step (input_path output_path : path) (label_font : font)
    (st : canvas * Z) (template_name : string) : M (canvas * Z) :=
  let '(cv, y_pos) := st in
  let input_file := pair_input input_path template_name in
  let output_file := pair_output output_path template_name in
  fs ← get_files;
  if negb (exists_ fs input_file) then
    print (MsgWarnInputMissing template_name) ;; mret st
  else if negb (exists_ fs output_file) then
    print (MsgWarnOutputMissing (Path.name output_file)) ;; mret st
  else
    before_img ← image_open input_file;
    after_img ← image_open output_file;
    let before_img := thumbnail pil before_img (img_width, img_height) in
    let after_img := thumbnail pil after_img (img_width, img_height) in
    if negb (usable_as_mask after_img) then raise (Error ValueError)
    else
      let cv := foldl draw cv (row_ops label_font template_name before_img after_img y_pos) in
      let y_pos := y_pos + (img_height + label_height + padding) in
      print (MsgAdded template_name) ;;
      mret (cv, y_pos).

Fixpoint grid_loop (input_path output_path : path) (label_font : font)
    (names : list string) (st : canvas * Z) : M (canvas * Z) :=
  match names with
  | [] => mret st
  | template_name :: rest =>
      st' ← grid_step input_path output_path label_font st template_name;
      grid_loop input_path output_path label_font rest st'
  end.

(** Lines 60 to 69: the title and the column headers. *)
Definition heading_ops (title_font header_font : font) : list draw_op :=
  let title := "Before & After Comparison" in
  let title_width := text_width title_font title in
  let y_pos := title_height in
  [ OpText ((grid_width - title_width) / 2) 20 title "black" title_font;
    OpText (padding + img_width / 2 - 30) (y_pos + 10) "BEFORE" "black" header_font;
    OpText (padding * 2 + img_width + img_width / 2 - 20) (y_pos + 10)
           "AFTER" "black" header_font ].

(** The canvas before the loop, and the value of [y_pos] there. *)
Definition grid_start : canvas * Z :=
  let '(title_font, header_font, _) := load_fonts in
  (foldl draw (image_new grid_width grid_height "white")
         (heading_ops title_font header_font),
   title_height + label_height).

(** [create_comparison_grid(input_folder, output_folder, comparison_output)] *)
Definition create_comparison_grid
    (input_folder output_folder comparison_output : path) : M unit :=
  let '(_, _, label_font) := load_fonts in
  '(cv, _) ← grid_loop input_folder output_folder label_font template_images grid_start;
  write_bytes comparison_output (encode_png pil cv) ;;
  print (MsgGridSaved comparison_output).

End ComparisonBuilder.

(** ** The HTML viewer *)

Module Html.

(** The double quote of the literals below. *)
Definition q : string := Str.dquote.

(** The literal [html_content] starts from (lines 157 to 279). *)
Definition html_head : string :=
"<!DOCTYPE html>
<html lang=" +:+
q +:+
"en" +:+
q +:+
">
<head>
    <meta charset=" +:+
q +:+
"UTF-8" +:+
q +:+
">
    <meta name=" +:+
q +:+
"viewport" +:+
q +:+
" content=" +:+
q +:+
"width=device-width, initial-scale=1.0" +:+
q +:+
">
    <title>Before & After Comparison</title>
    <style>
        * {
            margin: 0;
            padding: 0;
            box-sizing: border-box;
        }
        
        body {
            font-family: -apple-system, BlinkMacSystemFont, 'Segoe UI', Roboto, Oxygen, Ubuntu, Cantarell, sans-serif;
            background: linear-gradient(135deg, #667eea 0%, #764ba2 100%);
            padding: 40px 20px;
            min-height: 100vh;
        }
        
        .container {
            max-width: 1400px;
            margin: 0 auto;
        }
        
        h1 {
            text-align: center;
            color: white;
            font-size: 3em;
            margin-bottom: 40px;
            text-shadow: 2px 2px 4px rgba(0,0,0,0.3);
        }
        
        .comparison-grid {
            display: grid;
            grid-template-columns: repeat(auto-fit, minmax(600px, 1fr));
            gap: 30px;
            margin-bottom: 40px;
        }
        
        .comparison-item {
            background: white;
            border-radius: 12px;
            padding: 20px;
            box-shadow: 0 10px 30px rgba(0,0,0,0.3);
            transition: transform 0.3s ease;
        }
        
        .comparison-item:hover {
            transform: translateY(-5px);
        }
        
        .comparison-title {
            text-align: center;
            font-size: 1.5em;
            margin-bottom: 20px;
            color: #333;
            text-transform: capitalize;
        }
        
        .image-pair {
            display: grid;
            grid-template-columns: 1fr 1fr;
            gap: 15px;
        }
        
        .image-container {
            position: relative;
            overflow: hidden;
            border-radius: 8px;
            border: 2px solid #e0e0e0;
        }
        
        .image-container img {
            width: 100%;
            height: 300px;
            object-fit: contain;
            display: block;
        }
        
        .before-container {
            background: #f5f5f5;
        }
        
        .after-container {
            background: 
                repeating-linear-gradient(
                    45deg,
                    #f0f0f0,
                    #f0f0f0 10px,
                    #e0e0e0 10px,
                    #e0e0e0 20px
                );
        }
        
        .label {
            position: absolute;
            top: 10px;
            left: 10px;
            background: rgba(0, 0, 0, 0.7);
            color: white;
            padding: 5px 12px;
            border-radius: 4px;
            font-size: 0.9em;
            font-weight: bold;
        }
        
        @media (max-width: 768px) {
            .comparison-grid {
                grid-template-columns: 1fr;
            }
            
            h1 {
                font-size: 2em;
            }
        }
    </style>
</head>
<body>
    <div class=" +:+
q +:+
"container" +:+
q +:+
">
        <h1> Before & After Comparison</h1>
        <div class=" +:+
q +:+
"comparison-grid" +:+
q +:+
">
".

(** The f-string of one comparison item (lines 300 to 314), cut at its
    three fields: up to [{label}]. *)
Definition item_open : string :=
"
            <div class=" +:+
q +:+
"comparison-item" +:+
q +:+
">
                <div class=" +:+
q +:+
"comparison-title" +:+
q +:+
">".

(** From [{label}] up to [{before_b64}]. *)
Definition item_before : string :=
"</div>
                <div class=" +:+
q +:+
"image-pair" +:+
q +:+
">
                    <div class=" +:+
q +:+
"image-container before-container" +:+
q +:+
">
                        <div class=" +:+
q +:+
"label" +:+
q +:+
">BEFORE</div>
                        <img src=" +:+
q +:+
"data:image/png;base64,".

(** From [{before_b64}] up to [{after_b64}]. *)
Definition item_after : string :=
q +:+
" alt=" +:+
q +:+
"Before" +:+
q +:+
">
                    </div>
                    <div class=" +:+
q +:+
"image-container after-container" +:+
q +:+
">
                        <div class=" +:+
q +:+
"label" +:+
q +:+
">AFTER</div>
                        <img src=" +:+
q +:+
"data:image/png;base64,".

(** From [{after_b64}] to the end. *)
Definition item_close : string :=
q +:+
" alt=" +:+
q +:+
"After" +:+
q +:+
">
                    </div>
                </div>
            </div>
".

(** The closing literal (lines 316 to 321). *)
Definition html_foot : string :=
"
        </div>
    </div>
</body>
</html>
".

(** The f-string at given field values. *)
Definition item (label before_b64 after_b64 : string) : string :=
  item_open +:+ label +:+ item_before +:+ before_b64 +:+
  item_after +:+ after_b64 +:+ item_close.

End Html.

(** [img_to_base64(img_path)] *)
Definition img_to_base64 (img_path : path) : M string :=
  img_data ← read_bytes img_path;
  mret (Base64.b64encode img_data).

(** One iteration of [for template_name in template_images]; the state is
    [html_content]. *)
Definition html_step (input_path output_path : path)
    (html_content : string) (template_name : string) : M string :=
  let input_file := pair_input input_path template_name in
  let output_file := pair_output output_path template_name in
  fs ← get_files;
  if negb (exists_ fs input_file) || negb (exists_ fs output_file) then
    mret html_content
  else
    before_b64 ← img_to_base64 input_file;
    after_b64 ← img_to_base64 output_file;
    let label := pair_label template_name in
    mret (html_content +:+ Html.item label before_b64 after_b64).

Fixpoint html_loop (input_path output_path : path)
    (names : list string) (html_content : string) : M string :=
  match names with
  | [] => mret html_content
  | template_name :: rest =>
      html_content' ← html_step input_path output_path html_content template_name;
      html_loop input_path output_path rest html_content'
  end.

(** [open(p, 'w', encoding='utf-8').write(text)] *)
Definition write_text (p : path) (text : string) : M unit :=
  write_bytes p (list_byte_of_string text).

(** [create_html_comparison(input_folder, output_folder, html_output)] *)
Definition create_html_comparison
    (input_folder output_folder html_output : path) : M unit :=
  html_content ← html_loop input_folder output_folder template_images Html.html_head;
  let html_content := html_content +:+ Html.html_foot in
  write_text html_output html_content ;;
  print (MsgHtmlSaved html_output).

(** * What a run comes to

    Functions of the initial file system that say, without running the
    monad, what each part of a script does.  The theorems below relate
    them to the scripts. *)

(** When [write_bytes] can write. *)
Definition writable (fs : gmap path node) (p : path) : bool :=
  match write_error fs p with None => true | Some _ => false end.

Section BackgroundRemoverResults.

Variable lib : rembg.

(** The output of a prediction with model [m] on the file at [input],
    written to [output]; or the error of the first step that raises:
    reading, inference, writing. *)
Definition transform (m : model_id) (fs : gmap path node)
    (input output : path) : error + bytes :=
  match read_result fs input with
  | inl e => inl e
  | inr input_data =>
      match segment lib m input_data with
      | None => inl InferenceError
      | Some output_data =>
          match write_error fs output with
          | Some e => inl e
          | None => inr output_data
          end
      end
  end.

(** The output file of [png_file] in a batch. *)
Definition batch_output (output_path png_file : path) : path :=
  Path.join output_path (no_bg_name (Path.stem png_file)).

(** The file system after a file has been processed. *)
Definition after_transform (fs : gmap path node) (output : path)
    (r : error + bytes) : gmap path node :=
  match r with
  | inr output_data => <[output := File output_data]> fs
  | inl _ => fs
  end.

(** The results of a batch, file by file, each on the file system the
    files before it left. *)
Fixpoint batch_results (m : model_id) (fs : gmap path node)
    (output_path : path) (png_files : list path) : list (error + bytes) :=
  match png_files with
  | [] => []
  | png_file :: rest =>
      let r := transform m fs png_file (batch_output output_path png_file) in
      r :: batch_results m (after_transform fs (batch_output output_path png_file) r)
                         output_path rest
  end.

Definition failed (r : error + bytes) : bool :=
  match r with inl _ => true | inr _ => false end.

(** The paths a batch writes: the output of each file that succeeds, in
    the order of the batch. *)
Fixpoint batch_written (m : model_id) (fs : gmap path node)
    (output_path : path) (png_files : list path) : list path :=
  match png_files with
  | [] => []
  | png_file :: rest =>
      let output := batch_output output_path png_file in
      let r := transform m fs png_file output in
      (if failed r then [] else [output])
      ++ batch_written m (after_transform fs output r) output_path rest
  end.

(** K: how many files of the batch fail. *)
Definition failures (rs : list (error + bytes)) : nat :=
  length (filter (λ r, failed r = true) rs).

Definition successes (rs : list (error + bytes)) : nat :=
  length (filter (λ r, failed r = false) rs).

(** The line printed for a file of the batch. *)
Definition file_line (output_path png_file : path) (r : error + bytes) : message :=
  match r with
  | inr _ => MsgFileDone (Path.name png_file)
                         (Path.name (batch_output output_path png_file))
  | inl e => MsgFileError (Path.name png_file) e
  end.

(** The summary ([print] of lines 98 to 101). *)
Definition summary (success_count fail_count : nat) : list message :=
  [MsgRule; MsgProcessingComplete; MsgSuccess success_count; MsgFailed fail_count].

(** Does the set-up of a batch raise: creating the output folder, or, when
    there are files to process, opening the session. *)
Definition batch_setup_raises (fs : gmap path node)
    (input_folder output_folder : path) (model : model_id) : bool :=
  match mkdir_rev fs (rev output_folder) with
  | inl _ => true
  | inr fs' =>
      match glob_png fs' input_folder with
      | [] => false
      | _ => negb (load_model lib model)
      end
  end.

(** The three conditions under which [main] calls [sys.exit(1)]. *)
Definition input_rejected (fs : gmap path node) (input_path : path) : bool :=
  negb (exists_ fs input_path)
  || (is_file fs input_path
      && negb (String.eqb (Str.lower (Path.suffix input_path)) ".png"))
  || (negb (is_file fs input_path) && negb (is_dir fs input_path)).

(** Single-file mode: the input is a regular file with a PNG extension. *)
Definition single_file_mode (fs : gmap path node) (input_path : path) : bool :=
  is_file fs input_path
  && String.eqb (Str.lower (Path.suffix input_path)) ".png".

(** What single-file mode does with its input: [rembg.remove] without a
    session loads u2net. *)
Definition single_file_result (fs : gmap path node)
    (input output : path) : error + bytes :=
  match read_result fs input with
  | inl e => inl e
  | inr _ =>
      if load_model lib U2net then transform U2net fs input output
      else inl ModelLoadError
  end.

End BackgroundRemoverResults.

(** ** What the comparison builder draws and writes *)

(** Both files of the pair exist. *)
Definition pair_present (fs : gmap path node) (input_path output_path : path)
    (template_name : string) : bool :=
  exists_ fs (pair_input input_path template_name)
  && exists_ fs (pair_output output_path template_name).

Definition present_pairs (fs : gmap path node) (input_path output_path : path)
    (names : list string) : list string :=
  filter (λ t, pair_present fs input_path output_path t = true) names.

Definition absent_pairs (fs : gmap path node) (input_path output_path : path)
    (names : list string) : list string :=
  filter (λ t, pair_present fs input_path output_path t = false) names.

(** The warning of the grid generator for a pair that is not present: for
    the input when that is missing, else for the output. *)
Definition pair_warning (fs : gmap path node) (input_path output_path : path)
    (template_name : string) : message :=
  if exists_ fs (pair_input input_path template_name)
  then MsgWarnOutputMissing (Path.name (pair_output output_path template_name))
  else MsgWarnInputMissing template_name.

(** The vertical step from one row to the next. *)
Definition row_pitch : Z := img_height + label_height + padding.

(** The rows of a list of pairs, each with its value of [y_pos], from
    [y_pos] downwards. *)
Fixpoint place_rows (y_pos : Z) (names : list string) : list (string * Z) :=
  match names with
  | [] => []
  | template_name :: rest =>
      (template_name, y_pos) :: place_rows (y_pos + row_pitch) rest
  end.

Section GridResults.

Variable pil : pillow.

(** What [Image.open] gives on a path. *)
Definition load_image (fs : gmap path node) (p : path) : error + image :=
  match read_result fs p with
  | inl e => inl e
  | inr data =>
      match decode pil data with
      | Some im => inr im
      | None => inl UnidentifiedImageError
      end
  end.

(** The two thumbnails of a pair, when both files are images and the
    'after' one can be pasted with itself as the mask. *)
Definition pair_images (fs : gmap path node) (input_path output_path : path)
    (template_name : string) : option (image * image) :=
  match load_image fs (pair_input input_path template_name),
        load_image fs (pair_output output_path template_name) with
  | inr before_img, inr after_img =>
      let before_img := thumbnail pil before_img (img_width, img_height) in
      let after_img := thumbnail pil after_img (img_width, img_height) in
      if usable_as_mask after_img then Some (before_img, after_img) else None
  | _, _ => None
  end.

(** Every pair that is present consists of two images, the 'after' one
    of a mask mode (as the RGBA images the background remover saves). *)
Definition grid_inputs_ok (fs : gmap path node) (input_path output_path : path)
    (names : list string) : bool :=
  forallb (λ t, match pair_images fs input_path output_path t with
                | Some _ => true
                | None => false
                end)
          (present_pairs fs input_path output_path names).

(** What a row at [y_pos] draws for a pair. *)
Definition row_of (fs : gmap path node) (input_path output_path : path)
    (label_font : font) (row : string * Z) : list draw_op :=
  match pair_images fs input_path output_path row.1 with
  | Some (before_img, after_img) =>
      row_ops pil label_font row.1 before_img after_img row.2
  | None => []
  end.

(** The rows of the grid: the present pairs, in the order of the list,
    from below the headers downwards. *)
Definition grid_rows (fs : gmap path node) (input_path output_path : path)
    : list (string * Z) :=
  place_rows (title_height + label_height)
             (present_pairs fs input_path output_path template_images).

(** What a pair draws with the row cursor at [y], written out: the
    'before' thumbnail, the 'after' thumbnail on its checkered background,
    the two borders and the label. *)
Definition row_drawing (label_font : font) (template_name : string)
    (before_img after_img : image) (y : Z) : list draw_op :=
  [ OpPaste before_img (20 + (300 - width before_img) / 2)
                       (y + 20 + (300 - height before_img) / 2);
    OpPasteCanvas
      (draw checker_background
            (OpPasteMasked after_img ((300 - width after_img) / 2)
                                     ((300 - height after_img) / 2)))
      340 (y + 20);
    OpRectangle 20 (y + 20) 320 (y + 320) None (Some "#CCCCCC") 2;
    OpRectangle 340 (y + 20) 640 (y + 320) None (Some "#CCCCCC") 2;
    OpText ((660 - text_width pil label_font (pair_label template_name)) / 2)
           (y + 330) (pair_label template_name) "black" label_font ].

(** The canvas of a run. *)
Definition grid_canvas (fs : gmap path node) (input_path output_path : path)
    : canvas :=
  foldl draw (fst (grid_start pil))
        (concat (map (row_of fs input_path output_path (load_fonts pil).2)
                     (grid_rows fs input_path output_path))).

(** The line the grid generator prints for a pair. *)
Definition grid_line (fs : gmap path node) (input_path output_path : path)
    (template_name : string) : message :=
  if pair_present fs input_path output_path template_name
  then MsgAdded template_name
  else pair_warning fs input_path output_path template_name.

End GridResults.

(** The texts drawn on a canvas, each with its height on it, and the
    corners of the tiles pasted on it (one tile for each row: the checkered
    background with the 'after' image). *)
Definition drawn_texts (cv : canvas) : list (string * Z) :=
  omap (λ op, match op with
              | OpText _ y text _ _ => Some (text, y)
              | _ => None
              end) (canvas_ops cv).

Definition pasted_tiles (cv : canvas) : list (Z * Z) :=
  omap (λ op, match op with
              | OpPasteCanvas _ x y => Some (x, y)
              | _ => None
              end) (canvas_ops cv).

(** The two payloads of a pair, when both files can be read. *)
Definition pair_payloads (fs : gmap path node) (input_path output_path : path)
    (template_name : string) : option (string * string) :=
  match read_result fs (pair_input input_path template_name),
        read_result fs (pair_output output_path template_name) with
  | inr before, inr after =>
      Some (Base64.b64encode before, Base64.b64encode after)
  | _, _ => None
  end.

(** Every pair that is present consists of two regular files. *)
Definition html_inputs_ok (fs : gmap path node) (input_path output_path : path)
    (names : list string) : bool :=
  forallb (λ t, match pair_payloads fs input_path output_path t with
                | Some _ => true
                | None => false
                end)
          (present_pairs fs input_path output_path names).

(** The comparison item of a pair. *)
Definition item_of (fs : gmap path node) (input_path output_path : path)
    (template_name : string) : string :=
  match pair_payloads fs input_path output_path template_name with
  | Some (before_b64, after_b64) =>
      Html.item (pair_label template_name) before_b64 after_b64
  | None => EmptyString
  end.

Fixpoint concat_strings (l : list string) : string :=
  match l with
  | [] => EmptyString
  | s :: rest => s +:+ concat_strings rest
  end.

(** The document of a run: the head, the items of the present pairs in
    the order of the list, the foot. *)
Definition html_document (fs : gmap path node) (input_path output_path : path)
    : string :=
  Html.html_head
  +:+ concat_strings (map (item_of fs input_path output_path)
                          (present_pairs fs input_path output_path template_images))
  +:+ Html.html_foot.





(** How a pattern meets the start of a text: it is there, it is not, or
    the text ends before the pattern does. *)
Inductive meets := Matches | Differs | RunsOut.

Fixpoint meet (pat s : string) : meets :=
  match pat, s with
  | EmptyString, _ => Matches
  | String _ _, EmptyString => RunsOut
  | String a pat', String b s' => if Ascii.eqb a b then meet pat' s' else Differs
  end.

Definition runs_out (m : meets) : bool :=
  match m with RunsOut => true | _ => false end.

(** No occurrence of [pat] starts in [s] and runs past its end: the
    occurrences of [pat] in [s] followed by any text are those in [s] and
    those in the text. *)
Fixpoint self_contained (pat s : string) : bool :=
  match s with
  | EmptyString => true
  | String _ s' => negb (runs_out (meet pat s)) && self_contained pat s'
  end.

(** A marker that can be counted in a document piece by piece: it starts
    with [<], which no payload and none of the five labels contains, and
    is self-contained in the literals of the generator. *)
Definition countable_marker (pat : string) : bool :=
  Str.starts_with "<" pat
  && forallb (self_contained pat)
       [Html.html_head; Html.item_open; Html.item_before; Html.item_after;
        Html.item_close; Html.html_foot]
  && forallb (λ t, Base64.all_chars (λ x, negb (Ascii.eqb "<" x)) (pair_label t))
             template_images.


(** Two file systems with the same ten pair files. *)
Definition same_pairs (input_path output_path : path)
    (fs1 fs2 : gmap path node) : Prop :=
  ∀ t, t ∈ template_images →
    stat fs1 (pair_input input_path t) = stat fs2 (pair_input input_path t)
    ∧ stat fs1 (pair_output output_path t) = stat fs2 (pair_output output_path t).

(** Two runs that end in the same way, print and write the same, and,
    when they end normally, leave the same bytes at [dest]. *)
Definition same_run (dest : path) (r1 r2 : outcome unit * world) : Prop :=
  fst r1 = fst r2
  ∧ trace (snd r1) = trace (snd r2)
  ∧ (fst r1 = Ret tt →
     ∃ data, files (snd r1) !! dest = Some (File data)
             ∧ files (snd r2) !! dest = Some (File data)).

(** ** Worlds and libraries to run the scripts on *)

Module Sample.

(** A library whose models all load; a prediction fails on empty input
    and otherwise appends a byte. *)
Definition lib : rembg :=
  Rembg (λ _, true)
        (λ _ data, match data with [] => None | _ => Some (data ++ [Byte.xff]) end).

(** A folder with three PNG files, one of them empty, a file that is no
    PNG, an empty folder, and a regular file [taken.png]. *)
Definition fs : gmap path node :=
  list_to_map
    [ (["dogs"], Dir);
      (["dogs"; "rex.png"], File [Byte.x01; Byte.x02]);
      (["dogs"; "fido.png"], File []);
      (["dogs"; "lassie.png"], File [Byte.x03]);
      (["dogs"; "notes.txt"], File [Byte.x04]);
      (["empty"], Dir);
      (["shots"], Dir);
      (["taken.png"], File [Byte.x05]) ].

(** A Pillow that takes every non-empty file for a 600x400 image (with
    an alpha band when its third byte says so), scales to 300x200, finds no
    font file, measures six pixels a character and encodes a canvas as the
    PNG signature and a byte for each operation. *)
Definition op_tag (op : draw_op) : Byte.byte :=
  match op with
  | OpText _ _ _ _ _ => Byte.x01
  | OpRectangle _ _ _ _ _ _ _ => Byte.x02
  | OpPaste _ _ _ => Byte.x03
  | OpPasteMasked _ _ _ => Byte.x04
  | OpPasteCanvas _ _ _ => Byte.x05
  end.

Definition pil : pillow :=
  Pillow (λ data, match data with
                  | [] => None
                  | _ :: _ :: Byte.x02 :: _ => Some (Image 600 400 "RGBA" data)
                  | _ => Some (Image 600 400 "RGB" data)
                  end)
         (λ im _, Image 300 200 (mode im) (pixels im))
         (λ _, false)
         (λ _ text, (0, 0, 6 * Z.of_nat (String.length text), 11))
         (λ cv, [Byte.x89; Byte.x50; Byte.x4e; Byte.x47;
                 Byte.x0d; Byte.x0a; Byte.x1a; Byte.x0a]
                ++ map op_tag (canvas_ops cv)).

(** An original (RGB), and what the background remover made of it (RGBA). *)
Definition original : node := File [Byte.x89; Byte.x50; Byte.x01].
Definition processed : node := File [Byte.x89; Byte.x50; Byte.x02; Byte.x03].

(** The two folders with all five pairs. *)
Definition five_pairs : gmap path node :=
  list_to_map
    [ (["input"], Dir); (["output"], Dir);
      (["input"; "black_cocker_spaniel_1.png"], original);
      (["input"; "border_collie_1.png"], original);
      (["input"; "german_sheperd_1.png"], original);
      (["input"; "golden_retriever_1.png"], original);
      (["input"; "siberian_husky_1.png"], original);
      (["output"; "black_cocker_spaniel_1_no_bg.png"], processed);
      (["output"; "border_collie_1_no_bg.png"], processed);
      (["output"; "german_sheperd_1_no_bg.png"], processed);
      (["output"; "golden_retriever_1_no_bg.png"], processed);
      (["output"; "siberian_husky_1_no_bg.png"], processed) ].

(** Three of the five pairs: the first lacks its input, the fourth its
    output. *)
Definition three_pairs : gmap path node :=
  delete ["input"; "black_cocker_spaniel_1.png"]
         (delete ["output"; "golden_retriever_1_no_bg.png"] five_pairs).

(** The three pairs again, among other files and with an earlier grid and
    document in place. *)
Definition three_pairs_later : gmap path node :=
  <[["comparison_grid.png"] := File [Byte.x00]]>
    (<[["comparison.html"] := File [Byte.x00]]>
       (<[["input"; "unrelated.png"] := original]> three_pairs)).

(** One pair, both files empty. *)
Definition empty_pair : gmap path node :=
  list_to_map
    [ (["input"], Dir); (["output"], Dir);
      (["input"; "border_collie_1.png"], File []);
      (["output"; "border_collie_1_no_bg.png"], File []) ].

(** One pair whose 'after' file is an image without an alpha band. *)
Definition opaque_pair : gmap path node :=
  list_to_map
    [ (["input"], Dir); (["output"], Dir);
      (["input"; "border_collie_1.png"], original);
      (["output"; "border_collie_1_no_bg.png"], original) ].

End Sample.

(** * Properties *)

(** ** Basic facts about the monad and the file system *)

Ltac unfold_M :=
  unfold mbind, M_bind, mret, M_ret, raise, sys_exit, print, emit,
    get_files, put_files, try_except, when in *.

Arguments read_bytes : simpl never.
Arguments write_bytes : simpl never.
Arguments mkdir_parents : simpl never.
Arguments new_session : simpl never.
Arguments remove : simpl never.
Arguments glob_png : simpl never.
Arguments write_error : simpl never.
Arguments read_result : simpl never.
Arguments transform : simpl never.
Arguments process_png : simpl never.
Arguments remove_background_from_file : simpl never.
Arguments remove_background_from_folder : simpl never.

Lemma printed_app t1 t2 : printed (t1 ++ t2) = printed t1 ++ printed t2.
Proof. apply omap_app. Qed.

Lemma inferences_app t1 t2 :
  inferences (t1 ++ t2) = inferences t1 ++ inferences t2.
Proof. apply omap_app. Qed.

Lemma written_app t1 t2 : written (t1 ++ t2) = written t1 ++ written t2.
Proof. apply omap_app. Qed.

Lemma read_bytes_run p w :
  read_bytes p w =
    (match read_result (files w) p with
     | inr b => Ret b
     | inl e => Exc (Error e)
     end, w).
Proof.
  unfold read_bytes. unfold_M. simpl. by destruct (read_result (files w) p).
Qed.

Lemma write_bytes_run p data w :
  write_bytes p data w =
    match write_error (files w) p with
    | None =>
        (Ret tt, World (<[p := File data]> (files w)) (trace w ++ [Wrote p data]))
    | Some e => (Exc (Error e), w)
    end.
Proof.
  unfold write_bytes. unfold_M. simpl. by destruct (write_error (files w) p).
Qed.

(** ** The background remover *)

Section BackgroundRemoverFacts.

Variable lib : rembg.

Lemma new_session_run m w :
  new_session lib m w =
    if load_model lib m then (Ret (Session m), w)
    else (Exc (Error ModelLoadError), w).
Proof. unfold new_session. by destruct (load_model lib m). Qed.

(** [remove] with a session: one inference with the model of the session. *)
Lemma remove_with_session data s w :
  remove lib data (Some s) w =
    (match segment lib (session_model s) data with
     | Some out => Ret out
     | None => Exc (Error InferenceError)
     end,
     World (files w) (trace w ++ [Infer (session_model s) data])).
Proof.
  unfold remove. unfold_M. cbn.
  by destruct (segment lib (session_model s) data).
Qed.

(** [remove] without a session: the model is u2net. *)
Lemma remove_without_session data w :
  remove lib data None w =
    if load_model lib U2net then
      (match segment lib U2net data with
       | Some out => Ret out
       | None => Exc (Error InferenceError)
       end,
       World (files w) (trace w ++ [Infer U2net data]))
    else (Exc (Error ModelLoadError), w).
Proof.
  unfold remove. unfold_M. rewrite new_session_run.
  destruct (load_model lib U2net); cbn; [|done].
  by destruct (segment lib U2net data).
Qed.

(** One iteration of the batch loop never raises; it counts the file as a
    success or as a failure according to [transform]. *)
Lemma process_png_run s output_path png_file counts w :
  let output_file := batch_output output_path png_file in
  let r := transform lib (session_model s) (files w) png_file output_file in
  ∃ t,
    process_png lib s output_path png_file counts w =
      (Ret (if failed r then (fst counts, S (snd counts))
            else (S (fst counts), snd counts)),
       World (after_transform (files w) output_file r) (trace w ++ t))
    ∧ printed t = [file_line output_path png_file r]
    ∧ Forall (λ m, m = session_model s) (inferences t)
    ∧ written t = if failed r then [] else [output_file].
Proof.
  intros output_file r. subst r. unfold process_png, transform.
  fold (batch_output output_path png_file). fold output_file.
  unfold_M. rewrite read_bytes_run.
  destruct (read_result (files w) png_file) as [e|d]; cbn.
  { exists [Print (MsgFileError (Path.name png_file) e)].
    destruct w; cbn. repeat split; constructor. }
  rewrite remove_with_session. cbn.
  destruct (segment lib (session_model s) d) as [o|]; cbn.
  2:{ exists [Infer (session_model s) d;
              Print (MsgFileError (Path.name png_file) InferenceError)].
      rewrite <- app_assoc. cbn. repeat split; repeat constructor. }
  rewrite write_bytes_run. cbn.
  destruct (write_error (files w) output_file) as [e|]; cbn.
  - exists [Infer (session_model s) d; Print (MsgFileError (Path.name png_file) e)].
    rewrite <- app_assoc. cbn. repeat split; repeat constructor.
  - exists [Infer (session_model s) d; Wrote output_file o;
            Print (MsgFileDone (Path.name png_file) (Path.name output_file))].
    rewrite <- !app_assoc. cbn. repeat split; repeat constructor.
Qed.

Lemma successes_cons r rs :
  successes (r :: rs) = ((if failed r then 0 else 1) + successes rs)%nat.
Proof.
  unfold successes. rewrite filter_cons.
  destruct (failed r); case_decide; done.
Qed.

Lemma failures_cons r rs :
  failures (r :: rs) = ((if failed r then 1 else 0) + failures rs)%nat.
Proof.
  unfold failures. rewrite filter_cons.
  destruct (failed r); case_decide; done.
Qed.

(** Every file is counted once: the two counters add up to the number of
    files. *)
Lemma successes_failures rs : (successes rs + failures rs = length rs)%nat.
Proof.
  induction rs as [|r rs IH]; [done|].
  rewrite successes_cons, failures_cons. cbn [length].
  destruct (failed r); lia.
Qed.

Lemma batch_results_length m fs output_path png_files :
  length (batch_results lib m fs output_path png_files) = length png_files.
Proof.
  revert fs. induction png_files as [|f rest IH]; intros fs; [done|].
  cbn. by rewrite IH.
Qed.

(** The loop never raises, handles every file, and ends with the counters
    at the number of successes and of failures. *)
Lemma process_png_files_run s output_path png_files : ∀ counts w,
  let rs := batch_results lib (session_model s) (files w) output_path png_files in
  ∃ t fs',
    process_png_files lib s output_path png_files counts w =
      (Ret ((fst counts + successes rs)%nat, (snd counts + failures rs)%nat),
       World fs' (trace w ++ t))
    ∧ printed t = zip_with (file_line output_path) png_files rs
    ∧ Forall (λ m, m = session_model s) (inferences t)
    ∧ Forall (λ p, ∃ f, f ∈ png_files ∧ p = batch_output output_path f) (written t).
Proof.
  induction png_files as [|f rest IH]; intros counts w rs.
  - exists [], (files w). subst rs. cbn. unfold_M.
    rewrite app_nil_r, !Nat.add_0_r. destruct w, counts. by repeat split.
  - subst rs. cbn [batch_results process_png_files].
    set (r := transform lib (session_model s) (files w) f (batch_output output_path f)).
    destruct (process_png_run s output_path f counts w) as (t1 & Hrun & Hp & Hi & Hw).
    fold r in Hrun, Hp, Hw.
    unfold mbind, M_bind. rewrite Hrun.
    match goal with |- context [process_png_files _ _ _ _ ?c ?w1] =>
      destruct (IH c w1) as (t2 & fs' & Hrest & Hp2 & Hi2 & Hw2) end.
    cbn [files trace] in Hrest, Hp2.
    exists (t1 ++ t2), fs'. rewrite Hrest.
    rewrite successes_cons, failures_cons, printed_app, inferences_app,
      written_app, Hp, Hp2, app_assoc.
    split; [|split; [done|split]].
    + f_equal. f_equal. destruct (failed r); cbn [fst snd]; f_equal; lia.
    + by apply Forall_app.
    + apply Forall_app. split.
      * rewrite Hw. destruct (failed r); constructor; [|done].
        exists f. split; [left|done].
      * eapply Forall_impl; [exact Hw2|]. intros p (f' & Hin & ->).
        exists f'. split; [by right|done].
Qed.

Lemma process_and_report_run s output_path png_files w :
  let rs := batch_results lib (session_model s) (files w) output_path png_files in
  ∃ t fs',
    process_and_report lib s output_path png_files w =
      (Ret tt, World fs' (trace w ++ t))
    ∧ printed t = zip_with (file_line output_path) png_files rs
                  ++ summary (successes rs) (failures rs)
    ∧ Forall (λ m, m = session_model s) (inferences t)
    ∧ Forall (λ p, ∃ f, f ∈ png_files ∧ p = batch_output output_path f) (written t).
Proof.
  intros rs.
  destruct (process_png_files_run s output_path png_files (0%nat, 0%nat) w)
    as (t & fs' & Hrun & Hp & Hi & Hw).
  fold rs in Hrun, Hp. cbn [fst snd Nat.add] in Hrun.
  exists (t ++ map Print (summary (successes rs) (failures rs))), fs'.
  unfold process_and_report. unfold_M. rewrite Hrun. cbn.
  rewrite printed_app, inferences_app, written_app, Hp, !app_nil_r.
  rewrite <- !app_assoc. done.
Qed.

(** What the loop writes: the outputs of the files that succeed. *)
Lemma process_png_files_written s output_path png_files : ∀ counts w,
  written (trace (snd (process_png_files lib s output_path png_files counts w)))
    = written (trace w)
      ++ batch_written lib (session_model s) (files w) output_path png_files.
Proof.
  induction png_files as [|f rest IH]; intros counts w.
  - cbn. unfold_M. by rewrite app_nil_r.
  - cbn [process_png_files batch_written].
    destruct (process_png_run s output_path f counts w) as (t1 & Hrun & _ & _ & Hw).
    unfold mbind, M_bind. rewrite Hrun, IH. cbn [files trace].
    by rewrite written_app, Hw, app_assoc.
Qed.

Lemma process_and_report_written s output_path png_files w :
  written (trace (snd (process_and_report lib s output_path png_files w)))
    = written (trace w)
      ++ batch_written lib (session_model s) (files w) output_path png_files.
Proof.
  pose proof (process_png_files_written s output_path png_files (0%nat, 0%nat) w) as Hw.
  destruct (process_png_files_run s output_path png_files (0%nat, 0%nat) w)
    as (t & fs' & Hrun & _).
  unfold process_and_report. unfold_M. rewrite Hrun in Hw |- *.
  cbn [snd trace] in Hw |- *. rewrite <- Hw.
  rewrite !written_app. cbn. by rewrite !app_nil_r.
Qed.

Lemma batch_written_elem m output_path png_files : ∀ fs p,
  p ∈ batch_written lib m fs output_path png_files →
  ∃ f, f ∈ png_files ∧ p = batch_output output_path f.
Proof.
  induction png_files as [|f rest IH]; intros fs p Hin.
  - by apply elem_of_nil in Hin.
  - cbn [batch_written] in Hin. apply elem_of_app in Hin as [Hin|Hin].
    + destruct (failed _); [by apply elem_of_nil in Hin|].
      apply list_elem_of_singleton in Hin as ->. exists f. split; [left|done].
    + apply IH in Hin as (f' & Hin & ->). exists f'. split; [by right|done].
Qed.

Lemma mkdir_parents_run p w :
  mkdir_parents p w =
    match mkdir_rev (files w) (rev p) with
    | inr fs' => (Ret tt, World fs' (trace w))
    | inl e => (Exc (Error e), w)
    end.
Proof.
  unfold mkdir_parents. unfold_M. cbn.
  by destruct (mkdir_rev (files w) (rev p)).
Qed.

(** The batch function, step by step: the output folder, the listing, the
    early return on an empty listing, the session, the loop. *)
Lemma remove_background_from_folder_run input_folder output_folder model w :
  remove_background_from_folder lib input_folder output_folder model w =
    match mkdir_rev (files w) (rev output_folder) with
    | inl e => (Exc (Error e), w)
    | inr fs' =>
        match glob_png fs' input_folder with
        | [] => (Ret tt, World fs' (trace w ++ [Print (MsgNoPngFound input_folder)]))
        | png_files =>
            let w' := World fs' (trace w ++ [Print (MsgFound (length png_files));
                                            Print (MsgModel model); Print MsgRule]) in
            if load_model lib model
            then process_and_report lib (Session model) output_folder png_files w'
            else (Exc (Error ModelLoadError), w')
        end
    end.
Proof.
  unfold remove_background_from_folder. unfold mbind, M_bind at 1.
  rewrite mkdir_parents_run.
  destruct (mkdir_rev (files w) (rev output_folder)) as [e|fs']; [done|].
  unfold_M. cbn [files trace].
  destruct (glob_png fs' input_folder) as [|f rest]; [done|].
  cbn [files trace]. rewrite new_session_run. cbn [files trace].
  rewrite <- !app_assoc. cbn [app].
  by destruct (load_model lib model).
Qed.

(** Single-file processing never raises: every exception of its body is
    caught and turned into the result [False]. *)
Lemma remove_background_from_file_run input_path output_path model w :
  let r := single_file_result lib (files w) input_path output_path in
  ∃ t,
    remove_background_from_file lib input_path output_path model w =
      (Ret (negb (failed r)),
       World (after_transform (files w) output_path r) (trace w ++ t))
    ∧ printed t = [MsgProcessing input_path;
                   match r with
                   | inr _ => MsgSaved output_path
                   | inl e => MsgErrorProcessing input_path e
                   end]
    ∧ Forall (λ m, m = U2net) (inferences t)
    ∧ written t = if failed r then [] else [output_path].
Proof.
  intros r. subst r.
  unfold remove_background_from_file, single_file_result, transform.
  unfold_M. cbn [files trace]. rewrite read_bytes_run. cbn [files trace].
  destruct (read_result (files w) input_path) as [e|d]; cbn [files trace failed negb after_transform].
  { exists [Print (MsgProcessing input_path); Print (MsgErrorProcessing input_path e)].
    rewrite <- app_assoc. repeat split; repeat constructor. }
  rewrite remove_without_session.
  destruct (load_model lib U2net); cbn [files trace failed negb after_transform].
  2:{ exists [Print (MsgProcessing input_path);
              Print (MsgErrorProcessing input_path ModelLoadError)].
      rewrite <- app_assoc. repeat split; repeat constructor. }
  destruct (segment lib U2net d) as [o|]; cbn [files trace failed negb after_transform].
  2:{ exists [Print (MsgProcessing input_path); Infer U2net d;
              Print (MsgErrorProcessing input_path InferenceError)].
      rewrite <- !app_assoc. repeat split; repeat constructor. }
  rewrite write_bytes_run. cbn [files trace].
  destruct (write_error (files w) output_path) as [e|];
    cbn [files trace failed negb after_transform].
  - exists [Print (MsgProcessing input_path); Infer U2net d;
            Print (MsgErrorProcessing input_path e)].
    rewrite <- !app_assoc. repeat split; repeat constructor.
  - exists [Print (MsgProcessing input_path); Infer U2net d;
            Wrote output_path o; Print (MsgSaved output_path)].
    rewrite <- !app_assoc. repeat split; repeat constructor.
Qed.

Lemma glob_png_elem fs folder f :
  f ∈ glob_png fs folder →
  f = Path.join folder (Path.name f) ∧ matches_png (Path.name f) = true.
Proof.
  unfold glob_png. rewrite list_elem_of_filter. intros [H _].
  unfold is_png_child in H. apply andb_true_iff in H as [H1 H2].
  by apply bool_decide_eq_true in H1.
Qed.

(** What [main] does in each of its four cases. *)
Lemma main_run a w :
  let input_path := arg_input a in
  main lib a w =
    match stat (files w) input_path with
    | None =>
        (Exc (SystemExit 1),
         World (files w) (trace w ++ [Print (MsgInputMissing input_path)]))
    | Some (File _) =>
        if String.eqb (Str.lower (Path.suffix input_path)) ".png" then
          let '(o, w') :=
            remove_background_from_file lib input_path
              (single_file_output (files w) input_path (arg_output a))
              (arg_model a) w in
          (match o with Ret _ => Ret tt | Exc e => Exc e end, w')
        else
          (Exc (SystemExit 1), World (files w) (trace w ++ [Print MsgNotPng]))
    | Some Dir =>
        remove_background_from_folder lib input_path (arg_output a) (arg_model a) w
    | Some Special =>
        (Exc (SystemExit 1),
         World (files w) (trace w ++ [Print (MsgNeitherFileNorDir input_path)]))
    end.
Proof.
  intros input_path. unfold main. fold input_path.
  unfold exists_, is_file, is_dir. unfold_M. cbn [files trace].
  destruct (stat (files w) input_path) as [[b| |]|]; cbn [negb files trace].
  - destruct (String.eqb (Str.lower (Path.suffix input_path)) ".png");
      cbn [negb files trace]; [|done].
    destruct w as [fs t]; unfold_M; cbn [files trace].
    destruct (remove_background_from_file lib input_path _ (arg_model a) _)
      as [[b'|e] w']; done.
  - by destruct w.
  - done.
  - done.
Qed.

(** The exit status of a batch run: 1 when the set-up raises, else 0. *)
Lemma folder_exit_status input_folder output_folder model w :
  exit_status (fst (remove_background_from_folder lib input_folder output_folder model w)) =
    if batch_setup_raises lib (files w) input_folder output_folder model
    then 1 else 0.
Proof.
  rewrite remove_background_from_folder_run. unfold batch_setup_raises.
  destruct (mkdir_rev (files w) (rev output_folder)) as [e|fs']; [done|].
  destruct (glob_png fs' input_folder) as [|f rest] eqn:Hglob; [done|].
  cbn zeta. destruct (load_model lib model); [|done].
  match goal with |- context [process_and_report lib ?s ?o ?fl ?w1] =>
    destruct (process_and_report_run s o fl w1) as (t & fs'' & -> & _) end.
  done.
Qed.

(** C1 (as amended): the script exits with status 1 exactly when the input
    path does not exist, or is a regular file whose extension, compared
    without regard to case, is not [.png], or is neither a file nor a
    directory, or is a directory and the set-up of the batch raises an
    exception (creating the output folder, or opening the model session
    when PNG files were found), which nothing catches.  In every other run
    the status is 0, whatever happens to the single files. *)
Theorem main_exit_status (a : args) (fs : gmap path node) (t : list event) :
  fst (run lib a (World fs t)) =
    if input_rejected fs (arg_input a)
       || (is_dir fs (arg_input a)
           && batch_setup_raises lib fs (arg_input a) (arg_output a) (arg_model a))
    then 1 else 0.
Proof.
  unfold run. pose proof (main_run a (World fs t)) as Hmain.
  cbn zeta in Hmain. cbn [files trace] in Hmain.
  unfold input_rejected, exists_, is_file, is_dir.
  destruct (stat fs (arg_input a)) as [[b| |]|] eqn:Hstat.
  - destruct (String.eqb (Str.lower (Path.suffix (arg_input a))) ".png").
    + destruct (remove_background_from_file_run (arg_input a)
                  (single_file_output fs (arg_input a) (arg_output a))
                  (arg_model a) (World fs t)) as (t' & Hfile & _).
      rewrite Hfile in Hmain. by rewrite Hmain.
    + by rewrite Hmain.
  - pose proof (folder_exit_status (arg_input a) (arg_output a) (arg_model a)
                  (World fs t)) as Hfolder.
    rewrite <- Hmain in Hfolder. cbn [files] in Hfolder.
    destruct (main lib a (World fs t)) as [o w']. cbn [fst] in *.
    rewrite Hfolder. cbn [negb orb andb].
    by destruct (batch_setup_raises lib fs _ _ _).
  - by rewrite Hmain.
  - by rewrite Hmain.
Qed.

End BackgroundRemoverFacts.

(** C1, as stated, fails: with a directory as input and an existing
    regular file as output path none of the three conditions holds, yet
    [mkdir] raises and the status is 1. *)
Lemma main_exit_status_counterexample :
  input_rejected Sample.fs ["dogs"] = false
  ∧ fst (run Sample.lib (Args ["dogs"] ["taken.png"] U2net) (World Sample.fs [])) = 1.
Proof. split; vm_compute; reflexivity. Qed.

(** ** The batch loop and its summary *)

(** C2 (as amended): in every batch run whose set-up succeeds (the output
    folder can be created, the model session opened) and which finds
    N >= 1 PNG files, of which K fail while being read, run through the
    model or written, the loop handles all N files, one line each, without
    aborting, and the summary that ends the output reports exactly N - K
    successes and K failures. *)
Theorem batch_summary (lib : rembg) (input_folder output_folder : path)
    (model : model_id) (fs fs' : gmap path node) :
  mkdir_rev fs (rev output_folder) = inr fs' →
  glob_png fs' input_folder ≠ [] →
  load_model lib model = true →
  let png_files := glob_png fs' input_folder in
  let rs := batch_results lib model fs' output_folder png_files in
  let N := length png_files in
  let K := failures rs in
  ∃ w',
    remove_background_from_folder lib input_folder output_folder model (World fs [])
      = (Ret tt, w')
    ∧ printed (trace w') =
        [MsgFound N; MsgModel model; MsgRule]
        ++ zip_with (file_line output_folder) png_files rs
        ++ summary (N - K) K
    ∧ length rs = N
    ∧ (K ≤ N)%nat
    ∧ successes rs = (N - K)%nat.
Proof.
  intros Hmkdir Hglob Hload. cbn zeta.
  rewrite remove_background_from_folder_run. cbn [files trace].
  rewrite Hmkdir.
  destruct (glob_png fs' input_folder) as [|f rest]; [done|].
  set (png_files := f :: rest).
  set (rs := batch_results lib model fs' output_folder png_files).
  cbn zeta. rewrite Hload.
  match goal with |- context [process_and_report lib ?s ?o ?fl ?w1] =>
    destruct (process_and_report_run lib s o fl w1) as (t & fs'' & Hrun & Hp & _) end.
  cbn [files trace session_model] in Hrun, Hp. fold rs in Hp.
  assert (length rs = length png_files) as Hlen by apply batch_results_length.
  pose proof (successes_failures rs) as Hsum.
  assert (successes rs = (length png_files - failures rs)%nat) as Hsucc by lia.
  eexists. split; [exact Hrun|]. cbn [trace].
  rewrite printed_app, Hp, Hsucc.
  repeat split; [done | lia].
Qed.

(** A batch of three files, one of which fails: two successes, one
    failure. *)
Lemma batch_summary_witness :
  (mkdir_rev Sample.fs (rev ["out"]) = inr (<[["out"] := Dir]> Sample.fs)
   ∧ length (glob_png (<[["out"] := Dir]> Sample.fs) ["dogs"]) = 3%nat
   ∧ load_model Sample.lib U2netp = true)
  ∧ ∃ w',
      remove_background_from_folder Sample.lib ["dogs"] ["out"] U2netp
        (World Sample.fs []) = (Ret tt, w')
      ∧ printed (trace w') =
          [MsgFound 3; MsgModel U2netp; MsgRule;
           MsgFileDone "rex.png" "rex_no_bg.png";
           MsgFileError "fido.png" InferenceError;
           MsgFileDone "lassie.png" "lassie_no_bg.png";
           MsgRule; MsgProcessingComplete; MsgSuccess 2; MsgFailed 1].
Proof.
  split; [split; [reflexivity | split; [vm_compute; reflexivity | reflexivity]]|].
  destruct (batch_summary Sample.lib ["dogs"] ["out"] U2netp Sample.fs
              (<[["out"] := Dir]> Sample.fs))
    as (w' & Hrun & Hp & _).
  - reflexivity.
  - vm_compute. discriminate.
  - reflexivity.
  - exists w'. split; [exact Hrun|]. rewrite Hp. vm_compute. reflexivity.
Defined.

(** C2, as stated, fails on a folder without PNG files: the function
    returns before the loop, and no summary is printed. *)
Lemma batch_summary_counterexample :
  glob_png Sample.fs ["empty"] = []
  ∧ printed (trace (snd (remove_background_from_folder Sample.lib ["empty"] ["empty"]
                           U2net (World Sample.fs []))))
    = [MsgNoPngFound ["empty"]].
Proof. split; vm_compute; reflexivity. Qed.

(** ** The model a run predicts with *)

Section ModelUsed.

Variable lib : rembg.

(** In batch mode every prediction runs with the model given to [-m]. *)
Lemma batch_inferences (a : args) (fs : gmap path node) :
  is_dir fs (arg_input a) = true →
  Forall (λ m, m = arg_model a)
         (inferences (trace (snd (run lib a (World fs []))))).
Proof.
  intros Hdir. unfold run. pose proof (main_run lib a (World fs [])) as Hmain.
  cbn zeta in Hmain. cbn [files trace] in Hmain.
  unfold is_dir in Hdir.
  destruct (stat fs (arg_input a)) as [[b| |]|]; try done.
  rewrite Hmain, remove_background_from_folder_run. cbn [files trace].
  destruct (mkdir_rev fs (rev (arg_output a))) as [e|fs']; [by constructor|].
  destruct (glob_png fs' (arg_input a)) as [|f rest]; [by constructor|].
  cbn zeta. destruct (load_model lib (arg_model a)); [|by constructor].
  match goal with |- context [process_and_report lib ?s ?o ?fl ?w1] =>
    destruct (process_and_report_run lib s o fl w1) as (t & fs'' & -> & _ & Hi & _) end.
  cbn [fst snd trace app]. 
  change (inferences (Print (MsgFound (length (f :: rest)))
                      :: Print (MsgModel (arg_model a)) :: Print MsgRule :: t))
    with (inferences t).
  exact Hi.
Qed.

(** In single-file mode every prediction runs with u2net, whatever was
    given to [-m]: [remove_background_from_file] does not use its [model]
    argument. *)
Lemma single_file_inferences (a : args) (fs : gmap path node) :
  single_file_mode fs (arg_input a) = true →
  Forall (λ m, m = U2net)
         (inferences (trace (snd (run lib a (World fs []))))).
Proof.
  unfold single_file_mode, is_file. intros Hmode.
  unfold run. pose proof (main_run lib a (World fs [])) as Hmain.
  cbn zeta in Hmain. cbn [files trace] in Hmain.
  destruct (stat fs (arg_input a)) as [[b| |]|]; try done.
  cbn [andb] in Hmode. rewrite Hmode in Hmain.
  destruct (remove_background_from_file_run lib (arg_input a)
              (single_file_output fs (arg_input a) (arg_output a))
              (arg_model a) (World fs [])) as (t & Hfile & _ & Hi & _).
  rewrite Hfile in Hmain. rewrite Hmain. exact Hi.
Qed.

End ModelUsed.

(** C3: the model used for inference should be the one selected with
    [-m].  In single-file mode it is not: run on one file with
    [-m u2netp], the script predicts with u2net. *)
Theorem single_file_model_ignored :
  let a := Args ["dogs"; "rex.png"] ["shots"] U2netp in
  let w' := snd (run Sample.lib a (World Sample.fs [])) in
  single_file_mode Sample.fs (arg_input a) = true
  ∧ arg_model a = U2netp
  ∧ inferences (trace w') = [U2net]
  ∧ written (trace w') = [["shots"; "rex_no_bg.png"]].
Proof. vm_compute. repeat split; reflexivity. Qed.

(** ** Output names *)

Lemma string_length_app s t :
  String.length (s +:+ t) = (String.length s + String.length t)%nat.
Proof. induction s as [|c s IH]; simpl; [done | by rewrite IH]. Qed.

Lemma rfind_app c s t j :
  Str.rfind c t = Some j →
  Str.rfind c (s +:+ t) = Some (String.length s + j)%nat.
Proof. intros H. induction s as [|x s IH]; simpl; [done | by rewrite IH]. Qed.

Lemma substring_app_l s t : substring 0 (String.length s) (s +:+ t) = s.
Proof.
  induction s as [|c s IH]; simpl; [by destruct t | by rewrite IH].
Qed.

Lemma substring_app_r s t n :
  substring (String.length s) n (s +:+ t) = substring 0 n t.
Proof. induction s as [|c s IH]; simpl; done. Qed.

Lemma has_suffix_png s :
  s ≠ EmptyString → Path.has_suffix (s +:+ ".png") = Some (String.length s).
Proof.
  intros Hs. unfold Path.has_suffix.
  rewrite (rfind_app "." s ".png" 0) by reflexivity.
  rewrite Nat.add_0_r, string_length_app. cbn [String.length].
  destruct s as [|c s]; [done|]. cbn [String.length].
  replace (0 <? S (String.length s))%nat with true
    by (symmetry; apply Nat.ltb_lt; lia).
  replace (S (String.length s) <? S (String.length s) + 4 - 1)%nat with true
    by (symmetry; apply Nat.ltb_lt; lia).
  done.
Qed.

(** The stem of [s.png] is [s], its suffix [.png]. *)
Lemma stem_of_png s : s ≠ EmptyString → Path.stem_of (s +:+ ".png") = s.
Proof.
  intros Hs. unfold Path.stem_of. rewrite has_suffix_png by done.
  apply substring_app_l.
Qed.

Lemma suffix_of_png s : s ≠ EmptyString → Path.suffix_of (s +:+ ".png") = ".png".
Proof.
  intros Hs. unfold Path.suffix_of. rewrite has_suffix_png by done.
  rewrite string_length_app, substring_app_r.
  replace (String.length s + String.length ".png" - String.length s)%nat with 4%nat
    by (cbn; lia).
  reflexivity.
Qed.

Lemma parent_join p nm : Path.parent (Path.join p nm) = p.
Proof. apply removelast_last. Qed.

(** C4 (as amended): the output files of batch mode, and the output file
    of single-file mode when the output path given is an existing
    directory, are named after their input: [<stem>_no_bg.png], which for
    an input [s.png] is [s] followed by [_no_bg] and [.png].  In batch mode
    the files written are the outputs of the files of the listing
    ([*.png] in the input folder) that are processed without error, in
    the order of the listing, each in the output folder under the name
    derived from the stem of the file it was made from.  (In single-file
    mode with any other output path the file is written under the name the
    caller gave.) *)
Theorem output_naming (lib : rembg) (a : args) (fs : gmap path node) :
  let w' := snd (run lib a (World fs [])) in
  (is_dir fs (arg_input a) = true →
   match mkdir_rev fs (rev (arg_output a)) with
   | inl _ => written (trace w') = []
   | inr fs' =>
       let png_files := glob_png fs' (arg_input a) in
       written (trace w')
         = (if load_model lib (arg_model a)
            then batch_written lib (arg_model a) fs' (arg_output a) png_files
            else [])
       ∧ Forall (λ p, ∃ f, f ∈ png_files
                         ∧ Path.parent f = arg_input a
                         ∧ matches_png (Path.name f) = true
                         ∧ p = Path.join (arg_output a) (no_bg_name (Path.stem f)))
                (written (trace w'))
   end)
  ∧ (single_file_mode fs (arg_input a) = true →
     is_dir fs (arg_output a) = true →
     Forall (λ p, p = Path.join (arg_output a)
                                (no_bg_name (Path.stem (arg_input a))))
            (written (trace w')))
  ∧ (∀ s, s ≠ EmptyString →
          no_bg_name (Path.stem_of (s +:+ ".png")) = s +:+ "_no_bg" +:+ ".png").
Proof.
  cbn zeta. unfold run. pose proof (main_run lib a (World fs [])) as Hmain.
  cbn zeta in Hmain. cbn [files trace] in Hmain.
  split; [|split].
  - unfold is_dir. intros Hdir.
    destruct (stat fs (arg_input a)) as [[b| |]|]; try done.
    rewrite Hmain, remove_background_from_folder_run. cbn [files trace].
    destruct (mkdir_rev fs (rev (arg_output a))) as [e|fs']; [done|].
    cbn zeta.
    assert (∀ l, l = (if load_model lib (arg_model a)
                      then batch_written lib (arg_model a) fs' (arg_output a)
                             (glob_png fs' (arg_input a))
                      else []) →
            Forall (λ p, ∃ f, f ∈ glob_png fs' (arg_input a)
                              ∧ Path.parent f = arg_input a
                              ∧ matches_png (Path.name f) = true
                              ∧ p = Path.join (arg_output a)
                                              (no_bg_name (Path.stem f))) l)
      as Hnamed.
    { intros l ->. destruct (load_model lib (arg_model a)); [|by constructor].
      apply Forall_forall. intros p (f & Hin & ->)%batch_written_elem.
      exists f. split; [done|].
      apply glob_png_elem in Hin as Hf. destruct Hf as [Hf Hpng].
      split; [|done]. rewrite Hf at 1. apply parent_join. }
    assert (∀ l, l = (if load_model lib (arg_model a)
                      then batch_written lib (arg_model a) fs' (arg_output a)
                             (glob_png fs' (arg_input a))
                      else []) →
            l = (if load_model lib (arg_model a)
                 then batch_written lib (arg_model a) fs' (arg_output a)
                        (glob_png fs' (arg_input a))
                 else [])
            ∧ Forall (λ p, ∃ f, f ∈ glob_png fs' (arg_input a)
                              ∧ Path.parent f = arg_input a
                              ∧ matches_png (Path.name f) = true
                              ∧ p = Path.join (arg_output a)
                                              (no_bg_name (Path.stem f))) l)
      as Hboth by (intros l Hl; split; [exact Hl | by apply Hnamed]).
    apply Hboth. clear Hboth Hnamed.
    destruct (glob_png fs' (arg_input a)) as [|f rest] eqn:Hglob;
      [by destruct (load_model lib (arg_model a))|].
    destruct (load_model lib (arg_model a)); [|done].
    match goal with |- context [process_and_report lib ?s ?o ?fl ?w1] =>
      pose proof (process_and_report_written lib s o fl w1) as Hw;
      destruct (process_and_report lib s o fl w1) as [o' w2] end.
    exact Hw.
  - unfold single_file_mode, is_file. intros Hmode Hout.
    destruct (stat fs (arg_input a)) as [[b| |]|]; try done.
    cbn [andb] in Hmode. rewrite Hmode in Hmain.
    unfold single_file_output in Hmain. rewrite Hout in Hmain.
    match type of Hmain with context [remove_background_from_file lib ?i ?o ?m ?w1] =>
      destruct (remove_background_from_file_run lib i o m w1)
        as (t & Hfile & _ & _ & Hw) end.
    rewrite Hfile in Hmain. rewrite Hmain. cbn [snd trace app]. rewrite Hw.
    destruct (failed _); by repeat constructor.
  - intros s Hs. unfold no_bg_name. by rewrite stem_of_png.
Qed.

(** A batch and a single file sent to a directory: both name their
    outputs after the inputs. *)
Lemma output_naming_witness :
  written (trace (snd (run Sample.lib (Args ["dogs"] ["out"] U2net)
                           (World Sample.fs []))))
    = [["out"; "rex_no_bg.png"]; ["out"; "lassie_no_bg.png"]]
  ∧ Forall (λ p, ∃ f, f ∈ [["dogs"; "rex.png"]; ["dogs"; "fido.png"];
                            ["dogs"; "lassie.png"]]
                      ∧ p = ["out"] ++ [no_bg_name (Path.stem f)])
           (written (trace (snd (run Sample.lib (Args ["dogs"] ["out"] U2net)
                                     (World Sample.fs [])))))
  ∧ written (trace (snd (run Sample.lib (Args ["dogs"; "rex.png"] ["shots"] U2net)
                             (World Sample.fs []))))
    = [["shots"; "rex_no_bg.png"]]
  ∧ no_bg_name (Path.stem_of ("rex" +:+ ".png")) = "rex_no_bg.png".
Proof.
  pose proof (output_naming Sample.lib (Args ["dogs"] ["out"] U2net) Sample.fs)
    as (Hbatch & _ & Hname).
  split; [vm_compute; reflexivity|].
  split.
  { specialize (Hbatch eq_refl).
    assert (mkdir_rev Sample.fs (rev ["out"]) = inr (<[["out"] := Dir]> Sample.fs))
      as Hmk by reflexivity.
    cbn [arg_input arg_output arg_model] in Hbatch. rewrite Hmk in Hbatch.
    destruct Hbatch as [_ Hnamed].
    eapply Forall_impl; [exact Hnamed|]. cbn beta.
    intros p (f & Hin & _ & _ & ->). exists f. split; [|reflexivity].
    assert (glob_png (<[["out"] := Dir]> Sample.fs) ["dogs"]
            = [["dogs"; "rex.png"]; ["dogs"; "fido.png"]; ["dogs"; "lassie.png"]])
      as Hglob by (vm_compute; reflexivity).
    by rewrite Hglob in Hin. }
  split; [vm_compute; reflexivity|].
  apply (Hname "rex"). discriminate.
Defined.

(** C4, as stated, fails in single-file mode when the output path is not a
    directory: the file is written under the name the caller gave, which
    need not be derived from the input name. *)
Lemma output_naming_counterexample :
  let a := Args ["dogs"; "rex.png"] ["portrait.png"] U2net in
  single_file_mode Sample.fs (arg_input a) = true
  ∧ written (trace (snd (run Sample.lib a (World Sample.fs [])))) = [["portrait.png"]]
  ∧ no_bg_name (Path.stem (arg_input a)) = "rex_no_bg.png".
Proof. vm_compute. repeat split; reflexivity. Qed.

(** C9: in single-file mode the file is written to the path given with
    [-o], unless that path is an existing directory: then it is written
    inside it, as [<input stem>_no_bg.png].  That path is the only one the
    run writes, and it is written exactly when reading the input, the
    prediction and the writing all succeed. *)
Theorem single_file_output_path (lib : rembg) (a : args) (fs : gmap path node) :
  single_file_mode fs (arg_input a) = true →
  let input := arg_input a in
  let target :=
    if is_dir fs (arg_output a)
    then Path.join (arg_output a) (no_bg_name (Path.stem input))
    else arg_output a in
  let r := single_file_result lib fs input target in
  let w' := snd (run lib a (World fs [])) in
  written (trace w') = (if failed r then [] else [target])
  ∧ files w' = after_transform fs target r
  ∧ printed (trace w') =
      [MsgProcessing input;
       match r with
       | inr _ => MsgSaved target
       | inl e => MsgErrorProcessing input e
       end].
Proof.
  unfold single_file_mode, is_file. intros Hmode. cbn zeta.
  unfold run. pose proof (main_run lib a (World fs [])) as Hmain.
  cbn zeta in Hmain. cbn [files trace] in Hmain.
  destruct (stat fs (arg_input a)) as [[b| |]|]; try done.
  cbn [andb] in Hmode. rewrite Hmode in Hmain.
  unfold single_file_output in Hmain.
  match type of Hmain with context [remove_background_from_file lib ?i ?o ?m ?w1] =>
    destruct (remove_background_from_file_run lib i o m w1)
      as (t & Hfile & Hp & _ & Hw) end.
  rewrite Hfile in Hmain. rewrite Hmain. cbn [snd trace files app].
  by rewrite Hw, Hp.
Qed.

(** With a directory as output path the file goes inside it under the
    derived name; with any other path it goes to that path. *)
Lemma single_file_output_path_witness :
  (single_file_mode Sample.fs ["dogs"; "rex.png"] = true
   ∧ written (trace (snd (run Sample.lib (Args ["dogs"; "rex.png"] ["shots"] U2net)
                              (World Sample.fs []))))
     = [["shots"; "rex_no_bg.png"]])
  ∧ written (trace (snd (run Sample.lib (Args ["dogs"; "rex.png"] ["portrait.png"] U2net)
                             (World Sample.fs []))))
    = [["portrait.png"]].
Proof.
  split; [split; [reflexivity|]|].
  - destruct (single_file_output_path Sample.lib
                (Args ["dogs"; "rex.png"] ["shots"] U2net) Sample.fs)
      as (Hw & _); [reflexivity|].
    rewrite Hw. vm_compute. reflexivity.
  - destruct (single_file_output_path Sample.lib
                (Args ["dogs"; "rex.png"] ["portrait.png"] U2net) Sample.fs)
      as (Hw & _); [reflexivity|].
    rewrite Hw. vm_compute. reflexivity.
Defined.

(** ** The grid generator *)

Arguments image_open : simpl never.
Arguments grid_step : simpl never.
Arguments row_ops : simpl never.
Arguments load_image : simpl never.
Arguments pair_input : simpl never.
Arguments pair_output : simpl never.
Arguments thumbnail : simpl never.

Lemma canvas_size_draw cv ops : canvas_size (foldl draw cv ops) = canvas_size cv.
Proof.
  revert cv. induction ops as [|op ops IH]; intros cv; [done|].
  cbn [foldl]. rewrite IH. by destruct cv.
Qed.

Lemma canvas_ops_draw cv ops :
  canvas_ops (foldl draw cv ops) = canvas_ops cv ++ ops.
Proof.
  revert cv. induction ops as [|op ops IH]; intros cv.
  - by rewrite app_nil_r.
  - cbn [foldl]. rewrite IH. destruct cv. cbn. by rewrite <- app_assoc.
Qed.

Lemma present_pairs_cons fs input_path output_path t names :
  present_pairs fs input_path output_path (t :: names) =
    if pair_present fs input_path output_path t
    then t :: present_pairs fs input_path output_path names
    else present_pairs fs input_path output_path names.
Proof.
  unfold present_pairs. rewrite filter_cons.
  destruct (pair_present fs input_path output_path t); case_decide; done.
Qed.

Lemma absent_pairs_cons fs input_path output_path t names :
  absent_pairs fs input_path output_path (t :: names) =
    if pair_present fs input_path output_path t
    then absent_pairs fs input_path output_path names
    else t :: absent_pairs fs input_path output_path names.
Proof.
  unfold absent_pairs. rewrite filter_cons.
  destruct (pair_present fs input_path output_path t); case_decide; done.
Qed.

(** Every pair is present or absent. *)
Lemma present_absent_length fs input_path output_path names :
  (length (present_pairs fs input_path output_path names)
   + length (absent_pairs fs input_path output_path names) = length names)%nat.
Proof.
  induction names as [|t names IH]; [done|].
  rewrite present_pairs_cons, absent_pairs_cons.
  destruct (pair_present fs input_path output_path t); cbn [length]; lia.
Qed.

(** The rows are one pitch apart, in the order of the list. *)
Lemma place_rows_lookup names : ∀ y i t y',
  place_rows y names !! i = Some (t, y') →
  names !! i = Some t ∧ y' = y + row_pitch * Z.of_nat i.
Proof.
  induction names as [|n names IH]; intros y i t y' H; [done|].
  destruct i as [|i]; cbn in H.
  - simplify_eq. split; [done | lia].
  - apply IH in H as [H1 H2]. split; [done | lia].
Qed.

Lemma place_rows_length y names : length (place_rows y names) = length names.
Proof.
  revert y. induction names as [|n names IH]; intros y; [done|].
  cbn. by rewrite IH.
Qed.

Lemma place_rows_names y names : map fst (place_rows y names) = names.
Proof.
  revert y. induction names as [|n names IH]; intros y; [done|].
  cbn. by rewrite IH.
Qed.

Section GridFacts.

Variable pil : pillow.

Lemma image_open_run p w :
  image_open pil p w =
    (match load_image pil (files w) p with
     | inr im => Ret im
     | inl e => Exc (Error e)
     end, w).
Proof.
  unfold image_open, load_image. unfold_M. rewrite read_bytes_run.
  destruct (read_result (files w) p) as [e|d]; [done|].
  by destruct (decode pil d).
Qed.

(** One iteration of the grid loop, case by case. *)
Lemma grid_step_run input_path output_path label_font cv y_pos template_name w :
  grid_step pil input_path output_path label_font (cv, y_pos) template_name w =
    if pair_present (files w) input_path output_path template_name then
      match load_image pil (files w) (pair_input input_path template_name) with
      | inl e => (Exc (Error e), w)
      | inr before_img =>
          match load_image pil (files w) (pair_output output_path template_name) with
          | inl e => (Exc (Error e), w)
          | inr after_img =>
              if usable_as_mask (thumbnail pil after_img (img_width, img_height))
              then
                (Ret (foldl draw cv
                        (row_ops pil label_font template_name
                           (thumbnail pil before_img (img_width, img_height))
                           (thumbnail pil after_img (img_width, img_height)) y_pos),
                      y_pos + row_pitch),
                 World (files w) (trace w ++ [Print (MsgAdded template_name)]))
              else (Exc (Error ValueError), w)
          end
      end
    else
      (Ret (cv, y_pos),
       World (files w)
             (trace w ++ [Print (pair_warning (files w) input_path output_path
                                              template_name)])).
Proof.
  unfold grid_step, pair_present, pair_warning. unfold_M. cbn [files trace].
  destruct (exists_ (files w) (pair_input input_path template_name));
    cbn [negb andb]; [|done].
  destruct (exists_ (files w) (pair_output output_path template_name));
    cbn [negb andb]; [|done].
  rewrite image_open_run.
  destruct (load_image pil (files w) (pair_input input_path template_name))
    as [e|before_img]; [done|]. cbn [files trace].
  rewrite image_open_run.
  destruct (load_image pil (files w) (pair_output output_path template_name))
    as [e|after_img]; [done|].
  destruct (usable_as_mask (thumbnail pil after_img (img_width, img_height)));
    cbn [negb]; by destruct w.
Qed.

(** A pair whose 'after' image has no mask mode ends the loop: line 113
    raises. *)
Lemma grid_step_opaque input_path output_path label_font st template_name w
    before_img after_img :
  pair_present (files w) input_path output_path template_name = true →
  load_image pil (files w) (pair_input input_path template_name) = inr before_img →
  load_image pil (files w) (pair_output output_path template_name) = inr after_img →
  usable_as_mask (thumbnail pil after_img (img_width, img_height)) = false →
  grid_step pil input_path output_path label_font st template_name w =
    (Exc (Error ValueError), w).
Proof.
  intros Hp Hb Ha Hm. destruct st as [cv y].
  by rewrite grid_step_run, Hp, Hb, Ha, Hm.
Qed.

(** A pair that is not present is skipped: no exception, the canvas and
    the row cursor as they were, one warning. *)
Lemma grid_step_absent input_path output_path label_font st template_name w :
  pair_present (files w) input_path output_path template_name = false →
  grid_step pil input_path output_path label_font st template_name w =
    (Ret st,
     World (files w)
           (trace w ++ [Print (pair_warning (files w) input_path output_path
                                            template_name)])).
Proof. intros H. destruct st as [cv y]. by rewrite grid_step_run, H. Qed.

(** The loop over pairs that are images when present: the present pairs
    are drawn one below the other, the others warned about. *)
Lemma grid_loop_run input_path output_path label_font names : ∀ cv y_pos w,
  grid_inputs_ok pil (files w) input_path output_path names = true →
  grid_loop pil input_path output_path label_font names (cv, y_pos) w =
    (Ret (foldl draw cv
            (concat (map (row_of pil (files w) input_path output_path label_font)
                         (place_rows y_pos
                            (present_pairs (files w) input_path output_path names)))),
          y_pos + row_pitch
                  * Z.of_nat (length (present_pairs (files w) input_path
                                                    output_path names))),
     World (files w)
           (trace w ++ map Print (map (grid_line (files w) input_path output_path)
                                      names))).
Proof.
  induction names as [|t names IH]; intros cv y_pos w Hok.
  - cbn. unfold_M. rewrite app_nil_r, Z.mul_0_r, Z.add_0_r. by destruct w.
  - cbn [grid_loop]. unfold mbind, M_bind. rewrite grid_step_run.
    unfold grid_inputs_ok in Hok. rewrite present_pairs_cons in Hok |- *.
    cbn [map]. unfold grid_line at 1.
    destruct (pair_present (files w) input_path output_path t) eqn:Hpresent.
    + cbn [forallb] in Hok. apply andb_true_iff in Hok as [Himgs Hok].
      cbn [place_rows map concat length]. unfold row_of at 1. cbn [fst snd].
      unfold pair_images in Himgs |- *.
      destruct (load_image pil (files w) (pair_input input_path t))
        as [e|before_img]; [done|].
      destruct (load_image pil (files w) (pair_output output_path t))
        as [e|after_img]; [done|]. cbn zeta in Himgs |- *.
      destruct (usable_as_mask (thumbnail pil after_img (img_width, img_height)));
        [|done].
      rewrite IH by exact Hok. cbn [files trace map].
      rewrite foldl_app, <- app_assoc. cbn [app].
      do 3 f_equal. lia.
    + rewrite IH by exact Hok. cbn [files trace].
      by rewrite <- app_assoc.
Qed.

Lemma grid_start_size : canvas_size (fst (grid_start pil)) = (grid_width, grid_height).
Proof.
  unfold grid_start. destruct (load_fonts pil) as [[tf hf] lf].
  cbn [fst]. by rewrite canvas_size_draw.
Qed.

Lemma grid_canvas_dimensions fs input_path output_path :
  canvas_size (grid_canvas pil fs input_path output_path) = (660, 1880).
Proof. unfold grid_canvas. by rewrite canvas_size_draw, grid_start_size. Qed.

(** A run over pairs that are images when present, with a destination that
    can be written: the lines printed, the file saved. *)
Lemma create_comparison_grid_run input_folder output_folder comparison_output fs t0 :
  grid_inputs_ok pil fs input_folder output_folder template_images = true →
  writable fs comparison_output = true →
  let data := encode_png pil (grid_canvas pil fs input_folder output_folder) in
  create_comparison_grid pil input_folder output_folder comparison_output (World fs t0) =
    (Ret tt,
     World (<[comparison_output := File data]> fs)
           (t0 ++ map Print (map (grid_line fs input_folder output_folder)
                                 template_images)
               ++ [Wrote comparison_output data;
                   Print (MsgGridSaved comparison_output)])).
Proof.
  intros Hok Hw. cbn zeta. unfold create_comparison_grid, grid_canvas, grid_rows.
  unfold grid_start. destruct (load_fonts pil) as [[tf hf] lf]. cbn [fst snd].
  unfold mbind, M_bind at 1.
  rewrite grid_loop_run by exact Hok. cbn [files trace].
  unfold_M. rewrite write_bytes_run. cbn [files trace].
  unfold writable in Hw.
  destruct (write_error fs comparison_output); [done|].
  cbn [files trace]. by rewrite <- !app_assoc.
Qed.

(** Under [grid_inputs_ok] every present pair has its two thumbnails. *)
Lemma present_pair_images fs input_path output_path names t :
  grid_inputs_ok pil fs input_path output_path names = true →
  t ∈ present_pairs fs input_path output_path names →
  ∃ before_img after_img,
    pair_images pil fs input_path output_path t = Some (before_img, after_img).
Proof.
  unfold grid_inputs_ok. rewrite forallb_forall. intros Hok Hin.
  specialize (Hok t). rewrite <- list_elem_of_In in Hok. specialize (Hok Hin).
  destruct (pair_images pil fs input_path output_path t) as [[b a]|]; [|done].
  by exists b, a.
Qed.

(** The operations of a row, written out. *)
Lemma row_ops_drawing label_font template_name before_img after_img y :
  row_ops pil label_font template_name before_img after_img y
    = row_drawing pil label_font template_name before_img after_img y.
Proof.
  unfold row_ops, row_drawing, grid_width, img_width, img_height, padding.
  cbn zeta.
  replace (y + 20 + 300) with (y + 320) by lia.
  replace (y + 320 + 10) with (y + 330) by lia.
  reflexivity.
Qed.

Lemma row_of_drawing fs input_path output_path label_font t y before_img after_img :
  pair_images pil fs input_path output_path t = Some (before_img, after_img) →
  row_of pil fs input_path output_path label_font (t, y)
    = row_drawing pil label_font t before_img after_img y.
Proof. unfold row_of. cbn [fst snd]. intros ->. apply row_ops_drawing. Qed.

(** What the rows add to the texts and to the tiles of a canvas. *)
Lemma rows_texts fs input_path output_path label_font rows :
  (∀ r, r ∈ rows → ∃ before_img after_img,
     pair_images pil fs input_path output_path r.1 = Some (before_img, after_img)) →
  omap (λ op, match op with
              | OpText _ y text _ _ => Some (text, y)
              | _ => None
              end)
       (concat (map (row_of pil fs input_path output_path label_font) rows))
    = map (λ r, (pair_label r.1, r.2 + 330)) rows.
Proof.
  induction rows as [|[t y] rows IH]; intros Himgs; [done|].
  cbn [map concat]. rewrite omap_app, IH
    by (intros r Hr; apply Himgs; by right).
  destruct (Himgs (t, y)) as (b & a & Hba); [left|].
  by rewrite (row_of_drawing _ _ _ _ _ _ _ _ Hba).
Qed.

Lemma rows_tiles fs input_path output_path label_font rows :
  (∀ r, r ∈ rows → ∃ before_img after_img,
     pair_images pil fs input_path output_path r.1 = Some (before_img, after_img)) →
  omap (λ op, match op with
              | OpPasteCanvas _ x y => Some (x, y)
              | _ => None
              end)
       (concat (map (row_of pil fs input_path output_path label_font) rows))
    = map (λ r, (340, r.2 + 20)) rows.
Proof.
  induction rows as [|[t y] rows IH]; intros Himgs; [done|].
  cbn [map concat]. rewrite omap_app, IH
    by (intros r Hr; apply Himgs; by right).
  destruct (Himgs (t, y)) as (b & a & Hba); [left|].
  by rewrite (row_of_drawing _ _ _ _ _ _ _ _ Hba).
Qed.

Lemma rows_length fs input_path output_path label_font rows :
  (∀ r, r ∈ rows → ∃ before_img after_img,
     pair_images pil fs input_path output_path r.1 = Some (before_img, after_img)) →
  length (concat (map (row_of pil fs input_path output_path label_font) rows))
    = (5 * length rows)%nat.
Proof.
  induction rows as [|[t y] rows IH]; intros Himgs; [done|].
  cbn [map concat]. rewrite length_app, IH
    by (intros r Hr; apply Himgs; by right).
  destruct (Himgs (t, y)) as (b & a & Hba); [left|].
  rewrite (row_of_drawing _ _ _ _ _ _ _ _ Hba). cbn [length row_drawing]. lia.
Qed.

Lemma grid_start_ops :
  canvas_ops (fst (grid_start pil))
    = heading_ops pil (load_fonts pil).1.1 (load_fonts pil).1.2.
Proof.
  unfold grid_start. destruct (load_fonts pil) as [[tf hf] lf].
  cbn [fst snd]. by rewrite canvas_ops_draw.
Qed.

(** The rows of a run that gets through, operation by operation. *)
Lemma grid_canvas_rows fs input_path output_path :
  grid_inputs_ok pil fs input_path output_path template_images = true →
  let cv := grid_canvas pil fs input_path output_path in
  let rows := grid_rows fs input_path output_path in
  (∀ t y, (t, y) ∈ rows →
     ∃ before_img after_img,
       pair_images pil fs input_path output_path t = Some (before_img, after_img)
       ∧ row_of pil fs input_path output_path (load_fonts pil).2 (t, y)
         = row_drawing pil (load_fonts pil).2 t before_img after_img y)
  ∧ pasted_tiles cv = map (λ r, (340, r.2 + 20)) rows
  ∧ drawn_texts cv =
      [("Before & After Comparison", 20); ("BEFORE", 70); ("AFTER", 70)]
      ++ map (λ r, (pair_label r.1, r.2 + 330)) rows
  ∧ length (canvas_ops cv) = (3 + 5 * length rows)%nat.
Proof.
  intros Hok cv rows.
  assert (∀ r, r ∈ rows → ∃ before_img after_img,
            pair_images pil fs input_path output_path r.1
              = Some (before_img, after_img)) as Himgs.
  { intros r Hr. apply (present_pair_images _ _ _ _ _ Hok).
    unfold rows, grid_rows in Hr.
    apply (list_elem_of_fmap_2 fst) in Hr. by rewrite place_rows_names in Hr. }
  split.
  { intros t y Hin. destruct (Himgs _ Hin) as (b & a & Hba). exists b, a.
    split; [exact Hba | by apply row_of_drawing]. }
  unfold pasted_tiles, drawn_texts, cv, grid_canvas.
  rewrite canvas_ops_draw, grid_start_ops, !omap_app, length_app.
  fold rows. rewrite rows_tiles, rows_texts, rows_length by exact Himgs.
  by repeat split.
Qed.

End GridFacts.


(** An 'after' file that is an image without an alpha band: the run ends
    with the [ValueError] of the masked paste and saves nothing. *)
Lemma opaque_after_image_aborts :
  load_image Sample.pil Sample.opaque_pair ["output"; "border_collie_1_no_bg.png"]
    = inr (Image 600 400 "RGB" [Byte.x89; Byte.x50; Byte.x01])
  ∧ grid_inputs_ok Sample.pil Sample.opaque_pair ["input"] ["output"] template_images
    = false
  ∧ create_comparison_grid Sample.pil ["input"] ["output"] ["comparison_grid.png"]
      (World Sample.opaque_pair [])
    = (Exc (Error ValueError),
       World Sample.opaque_pair
             [Print (MsgWarnInputMissing "black_cocker_spaniel_1.png")]).
Proof. split; [|split]; reflexivity. Qed.



(** C10 (as amended): a pair that is skipped does not move the row cursor.
    The rows of the pairs that are present follow one another from below
    the headers (y = 100), 360 pixels apart, in the order of the list; the
    canvas keeps its full size, 660 by 1880, however many pairs are
    present, so that with fewer than five rows the bottom of the canvas
    stays blank.  Each row is drawn: the 'before' thumbnail, the tile with
    the 'after' thumbnail at (340, y + 20), the two borders and the label
    at y + 330, five operations a row after the three of the heading.
    (The pairs that are present are images, the 'after' one of a mode
    that can serve as its own paste mask; the destination can be
    written.) *)
Theorem grid_rows_contiguous (pil : pillow)
    (input_folder output_folder comparison_output : path) (fs : gmap path node) :
  grid_inputs_ok pil fs input_folder output_folder template_images = true →
  writable fs comparison_output = true →
  let present := present_pairs fs input_folder output_folder template_images in
  let rows := grid_rows fs input_folder output_folder in
  ∃ w' cv,
    create_comparison_grid pil input_folder output_folder comparison_output
      (World fs []) = (Ret tt, w')
    ∧ files w' !! comparison_output = Some (File (encode_png pil cv))
    ∧ canvas_size cv = (660, 1880)
    ∧ canvas_ops cv =
        canvas_ops (fst (grid_start pil))
        ++ concat (map (row_of pil fs input_folder output_folder (load_fonts pil).2)
                       rows)
    ∧ map fst rows = present
    ∧ present `sublist_of` template_images
    ∧ (∀ i t y, rows !! i = Some (t, y) → y = 100 + 360 * Z.of_nat i)
    ∧ (∀ i t y, rows !! i = Some (t, y) → y + 360 ≤ 100 + 360 * Z.of_nat (length present))
    ∧ ((length present < 5)%nat →
       100 + 360 * Z.of_nat (length present) + 340 ≤ grid_height)
    ∧ (∀ t y, (t, y) ∈ rows →
         ∃ before_img after_img,
           pair_images pil fs input_folder output_folder t
             = Some (before_img, after_img)
           ∧ row_of pil fs input_folder output_folder (load_fonts pil).2 (t, y)
             = row_drawing pil (load_fonts pil).2 t before_img after_img y)
    ∧ pasted_tiles cv = map (λ r, (340, r.2 + 20)) rows
    ∧ drawn_texts cv =
        [("Before & After Comparison", 20); ("BEFORE", 70); ("AFTER", 70)]
        ++ map (λ r, (pair_label r.1, r.2 + 330)) rows
    ∧ length (canvas_ops cv) = (3 + 5 * length present)%nat.
Proof.
  intros Hok Hw present rows.
  destruct (grid_canvas_rows pil fs input_folder output_folder Hok)
    as (Hdrawn & Htiles & Htexts & Hcount).
  eexists _, (grid_canvas pil fs input_folder output_folder).
  split; [by apply create_comparison_grid_run|]. cbn [files].
  split; [by rewrite lookup_insert_eq|].
  split; [apply grid_canvas_dimensions|].
  split; [unfold grid_canvas; by rewrite canvas_ops_draw|].
  assert (∀ y names, map fst (place_rows y names) = names) as Hfst.
  { intros y names. revert y.
    induction names as [|n names IH]; intros y; [done|]. cbn. by rewrite IH. }
  split; [apply Hfst|].
  split; [apply sublist_filter|].
  assert (∀ i t y, rows !! i = Some (t, y) →
                   present !! i = Some t ∧ y = 100 + 360 * Z.of_nat i) as Hrow.
  { intros i t y H. apply place_rows_lookup in H as [H1 H2].
    split; [done|]. rewrite H2. unfold row_pitch. by vm_compute. }
  split; [intros i t y H; by apply Hrow in H as [_ ?]|].
  split.
  { intros i t y H. apply Hrow in H as [Hin ->].
    apply lookup_lt_Some in Hin. lia. }
  split; [intros Hlt; change grid_height with 1880; lia|].
  split; [exact Hdrawn|]. split; [exact Htiles|]. split; [exact Htexts|].
  rewrite Hcount. unfold grid_rows. fold present.
  by rewrite place_rows_length.
Qed.

(** With three of the five pairs the rows are at 100, 460 and 820, each
    with its tile and its label. *)
Lemma grid_rows_contiguous_witness :
  grid_inputs_ok Sample.pil Sample.three_pairs ["input"] ["output"] template_images = true
  ∧ writable Sample.three_pairs ["comparison_grid.png"] = true
  ∧ grid_rows Sample.three_pairs ["input"] ["output"]
    = [("border_collie_1.png", 100); ("german_sheperd_1.png", 460);
       ("siberian_husky_1.png", 820)]
  ∧ ∃ w' cv,
      create_comparison_grid Sample.pil ["input"] ["output"] ["comparison_grid.png"]
        (World Sample.three_pairs []) = (Ret tt, w')
      ∧ files w' !! ["comparison_grid.png"] = Some (File (encode_png Sample.pil cv))
      ∧ canvas_size cv = (660, 1880)
      ∧ pasted_tiles cv = [(340, 120); (340, 480); (340, 840)]
      ∧ drawn_texts cv =
          [("Before & After Comparison", 20); ("BEFORE", 70); ("AFTER", 70);
           ("Border Collie 1", 430); ("German Sheperd 1", 790);
           ("Siberian Husky 1", 1150)]
      ∧ length (canvas_ops cv) = 18%nat.
Proof.
  split; [vm_compute; reflexivity|]. split; [vm_compute; reflexivity|].
  split; [vm_compute; reflexivity|].
  destruct (grid_rows_contiguous Sample.pil ["input"] ["output"]
              ["comparison_grid.png"] Sample.three_pairs)
    as (w' & cv & Hrun & Hfile & Hsize & _ & _ & _ & _ & _ & _ & _
        & Htiles & Htexts & Hcount).
  - vm_compute. reflexivity.
  - vm_compute. reflexivity.
  - exists w', cv.
    split; [exact Hrun|]. split; [exact Hfile|]. split; [exact Hsize|].
    rewrite Htiles, Htexts, Hcount. split; [|split]; vm_compute; reflexivity.
Defined.

(** C10, as stated, fails in its canvas size: with three of the five pairs
    the canvas is 660 by 1880, not 680 by 1880. *)
Lemma grid_rows_contiguous_counterexample :
  length (present_pairs Sample.three_pairs ["input"] ["output"] template_images) = 3%nat
  ∧ canvas_size (grid_canvas Sample.pil Sample.three_pairs ["input"] ["output"])
    = (660, 1880)
  ∧ (660, 1880) ≠ (680, 1880).
Proof.
  split; [vm_compute; reflexivity|].
  split; [apply grid_canvas_dimensions | discriminate].
Qed.

(** ** Strings: appending and counting *)

Lemma string_app_cons c s t : String c s +:+ t = String c (s +:+ t).
Proof. reflexivity. Qed.

Lemma string_app_assoc s t u : (s +:+ t) +:+ u = s +:+ (t +:+ u).
Proof.
  induction s as [|c s IH]; [done|]. by rewrite !string_app_cons, IH.
Qed.

Lemma string_app_nil_r s : s +:+ EmptyString = s.
Proof.
  induction s as [|c s IH]; [done|]. by rewrite string_app_cons, IH.
Qed.





(** A text without the first character of the pattern holds no start of
    an occurrence. *)
Lemma occurrences_skip c pat s t :
  Base64.all_chars (λ x, negb (Ascii.eqb c x)) s = true →
  Str.occurrences (String c pat) (s +:+ t) = Str.occurrences (String c pat) t.
Proof.
  induction s as [|x s IH]; intros Hs; [done|].
  change (String x s +:+ t) with (String x (s +:+ t)).
  cbn [Base64.all_chars] in Hs. apply andb_true_iff in Hs as [Hx Hs].
  cbn [Str.occurrences Str.starts_with].
  apply negb_true_iff in Hx. rewrite Hx. cbn [andb]. by rewrite IH.
Qed.

(** ** base64 payloads *)

Lemma digit_b64_char n : Base64.is_b64_char (Base64.digit n) = true.
Proof.
  unfold Base64.digit. generalize (N.to_nat n) as k. intros k.
  do 65 (destruct k as [|k]; [reflexivity|]). reflexivity.
Qed.

Lemma b64encode_chars_le n : ∀ data,
  (length data ≤ n)%nat →
  Base64.all_chars Base64.is_b64_char (Base64.b64encode data) = true.
Proof.
  induction n as [n IH] using lt_wf_ind. intros data Hlen.
  destruct data as [|a [|b [|c rest]]]; [done| | |].
  - cbn [Base64.b64encode]. destruct (Base64.sextets a Byte.x00 Byte.x00) as [[[s0 s1] s2] s3].
    cbn [Base64.all_chars]. by rewrite !digit_b64_char.
  - cbn [Base64.b64encode]. destruct (Base64.sextets a b Byte.x00) as [[[s0 s1] s2] s3].
    cbn [Base64.all_chars]. by rewrite !digit_b64_char.
  - cbn [Base64.b64encode]. destruct (Base64.sextets a b c) as [[[s0 s1] s2] s3].
    cbn [Base64.all_chars]. rewrite !digit_b64_char. cbn [andb].
    cbn [length] in Hlen. apply (IH (length rest)); lia.
Qed.

(** A payload consists of base64 characters. *)
Lemma b64encode_chars data :
  Base64.all_chars Base64.is_b64_char (Base64.b64encode data) = true.
Proof. by apply (b64encode_chars_le (length data)). Qed.


Lemma all_chars_impl (P Q : ascii → bool) s :
  (∀ c, P c = true → Q c = true) →
  Base64.all_chars P s = true → Base64.all_chars Q s = true.
Proof.
  intros HPQ. induction s as [|c s IH]; [done|]. cbn [Base64.all_chars].
  intros [Hc Hs]%andb_true_iff. by rewrite (HPQ c Hc), IH.
Qed.


(** ** The HTML generator *)

Arguments img_to_base64 : simpl never.
Arguments html_step : simpl never.
Arguments Html.item : simpl never.
Arguments pair_label : simpl never.

Lemma img_to_base64_run p w :
  img_to_base64 p w =
    (match read_result (files w) p with
     | inr data => Ret (Base64.b64encode data)
     | inl e => Exc (Error e)
     end, w).
Proof.
  unfold img_to_base64. unfold_M. rewrite read_bytes_run.
  by destruct (read_result (files w) p).
Qed.

(** One iteration of the HTML loop, case by case. *)
Lemma html_step_run input_path output_path html_content template_name w :
  html_step input_path output_path html_content template_name w =
    if pair_present (files w) input_path output_path template_name then
      match read_result (files w) (pair_input input_path template_name) with
      | inl e => (Exc (Error e), w)
      | inr before =>
          match read_result (files w) (pair_output output_path template_name) with
          | inl e => (Exc (Error e), w)
          | inr after =>
              (Ret (html_content
                    +:+ Html.item (pair_label template_name)
                                  (Base64.b64encode before)
                                  (Base64.b64encode after)), w)
          end
      end
    else (Ret html_content, w).
Proof.
  unfold html_step, pair_present. unfold_M. cbn [files trace].
  destruct (exists_ (files w) (pair_input input_path template_name));
    cbn [negb andb orb]; [|done].
  destruct (exists_ (files w) (pair_output output_path template_name));
    cbn [negb andb orb]; [|done].
  rewrite img_to_base64_run.
  destruct (read_result (files w) (pair_input input_path template_name))
    as [e|before]; [done|].
  rewrite img_to_base64_run.
  by destruct (read_result (files w) (pair_output output_path template_name)).
Qed.

(** A pair that is not present is left out in silence: no exception, the
    document as it was, nothing printed. *)
Lemma html_step_absent input_path output_path html_content template_name w :
  pair_present (files w) input_path output_path template_name = false →
  html_step input_path output_path html_content template_name w
    = (Ret html_content, w).
Proof. intros H. by rewrite html_step_run, H. Qed.

Lemma html_loop_run input_path output_path names : ∀ html_content w,
  html_inputs_ok (files w) input_path output_path names = true →
  html_loop input_path output_path names html_content w =
    (Ret (html_content
          +:+ concat_strings
                (map (item_of (files w) input_path output_path)
                     (present_pairs (files w) input_path output_path names))),
     w).
Proof.
  induction names as [|t names IH]; intros html_content w Hok.
  - cbn. unfold_M. by rewrite string_app_nil_r.
  - cbn [html_loop]. unfold mbind, M_bind. rewrite html_step_run.
    unfold html_inputs_ok in Hok. rewrite present_pairs_cons in Hok |- *.
    destruct (pair_present (files w) input_path output_path t).
    + cbn [forallb] in Hok. apply andb_true_iff in Hok as [Hpay Hok].
      cbn [map concat_strings]. unfold item_of at 1.
      unfold pair_payloads in Hpay |- *.
      destruct (read_result (files w) (pair_input input_path t)) as [e|before]; [done|].
      destruct (read_result (files w) (pair_output output_path t)) as [e|after]; [done|].
      rewrite IH by exact Hok. by rewrite string_app_assoc.
    + by rewrite IH.
Qed.

(** A run over pairs that are regular files when present, with a
    destination that can be written: the document, and one line printed. *)
Lemma create_html_comparison_run input_folder output_folder html_output fs t0 :
  html_inputs_ok fs input_folder output_folder template_images = true →
  writable fs html_output = true →
  let data := list_byte_of_string (html_document fs input_folder output_folder) in
  create_html_comparison input_folder output_folder html_output (World fs t0) =
    (Ret tt,
     World (<[html_output := File data]> fs)
           (t0 ++ [Wrote html_output data; Print (MsgHtmlSaved html_output)])).
Proof.
  intros Hok Hw. cbn zeta. unfold create_html_comparison, html_document, write_text.
  unfold mbind, M_bind at 1. rewrite html_loop_run by exact Hok. cbn [files trace].
  unfold_M. rewrite write_bytes_run. cbn [files trace].
  unfold writable in Hw. destruct (write_error fs html_output); [done|].
  cbn [files trace]. by rewrite string_app_assoc, <- !app_assoc.
Qed.

(** ** Counting markers in the document *)


Section Markers.

Variable pat : string.
Hypothesis Hpat : countable_marker pat = true.

Lemma marker_shape : ∃ pat', pat = String "<" pat'.
Proof.
  unfold countable_marker in Hpat.
  apply andb_true_iff in Hpat as [[Hlt _]%andb_true_iff _].
  destruct pat as [|a pat']; [done|]. cbn [Str.starts_with] in Hlt.
  apply andb_true_iff in Hlt as [Ha _].
  apply Ascii.eqb_eq in Ha as <-. by exists pat'.
Qed.




Lemma marker_skip s rest :
  Base64.all_chars (λ x, negb (Ascii.eqb "<" x)) s = true →
  Str.occurrences pat (s +:+ rest) = Str.occurrences pat rest.
Proof.
  destruct marker_shape as [pat' Heq]. rewrite Heq. apply occurrences_skip.
Qed.




End Markers.












(** ** Missing pairs *)

Lemma printed_prints msgs : printed (map Print msgs) = msgs.
Proof.
  induction msgs as [|m msgs IH]; [done|]. cbn [map].
  change (printed (Print m :: map Print msgs))
    with (m :: printed (map Print msgs)).
  by rewrite IH.
Qed.



(** ** Determinism *)

Lemma same_exists fs1 fs2 p : stat fs1 p = stat fs2 p → exists_ fs1 p = exists_ fs2 p.
Proof. unfold exists_. by intros ->. Qed.

Lemma same_read_result fs1 fs2 p :
  stat fs1 p = stat fs2 p → read_result fs1 p = read_result fs2 p.
Proof. unfold read_result. by intros ->. Qed.

Lemma same_load_image pil fs1 fs2 p :
  stat fs1 p = stat fs2 p → load_image pil fs1 p = load_image pil fs2 p.
Proof. unfold load_image. by intros ->%same_read_result. Qed.

(** The grid loop reads nothing of the file system but the files of its
    pairs: on two file systems that agree on them it ends in the same way,
    with the same canvas and the same lines printed, and leaves both as
    they were. *)
Lemma grid_loop_same pil input_path output_path label_font fs1 fs2 names :
  (∀ t, t ∈ names →
     stat fs1 (pair_input input_path t) = stat fs2 (pair_input input_path t)
     ∧ stat fs1 (pair_output output_path t) = stat fs2 (pair_output output_path t)) →
  ∀ st tr, ∃ o tr',
    grid_loop pil input_path output_path label_font names st (World fs1 tr)
      = (o, World fs1 tr')
    ∧ grid_loop pil input_path output_path label_font names st (World fs2 tr)
      = (o, World fs2 tr').
Proof.
  induction names as [|t names IH]; intros Hsame st tr.
  - exists (Ret st), tr. by split.
  - destruct (Hsame t) as [Hin Hout]; [left|].
    assert (∀ t', t' ∈ names →
      stat fs1 (pair_input input_path t') = stat fs2 (pair_input input_path t')
      ∧ stat fs1 (pair_output output_path t') = stat fs2 (pair_output output_path t'))
      as Hrest by (intros t' Ht'; apply Hsame; by right).
    destruct st as [cv y]. cbn [grid_loop]. unfold mbind, M_bind.
    rewrite !grid_step_run. cbn [files trace].
    unfold pair_present, pair_warning.
    rewrite (same_exists fs1 fs2 _ Hin), (same_exists fs1 fs2 _ Hout),
      (same_load_image pil fs1 fs2 _ Hin), (same_load_image pil fs1 fs2 _ Hout).
    destruct (exists_ fs2 (pair_input input_path t)); cbn [andb];
      [destruct (exists_ fs2 (pair_output output_path t))|]; try apply (IH Hrest).
    destruct (load_image pil fs2 (pair_input input_path t)) as [e|b];
      [by exists (Exc (Error e)), tr|].
    destruct (load_image pil fs2 (pair_output output_path t)) as [e|a];
      [by exists (Exc (Error e)), tr|].
    destruct (usable_as_mask (thumbnail pil a (img_width, img_height)));
      [|by exists (Exc (Error ValueError)), tr].
    apply (IH Hrest).
Qed.

Lemma html_loop_same input_path output_path fs1 fs2 names :
  (∀ t, t ∈ names →
     stat fs1 (pair_input input_path t) = stat fs2 (pair_input input_path t)
     ∧ stat fs1 (pair_output output_path t) = stat fs2 (pair_output output_path t)) →
  ∀ html tr, ∃ o,
    html_loop input_path output_path names html (World fs1 tr) = (o, World fs1 tr)
    ∧ html_loop input_path output_path names html (World fs2 tr) = (o, World fs2 tr).
Proof.
  induction names as [|t names IH]; intros Hsame html tr.
  - exists (Ret html). by split.
  - destruct (Hsame t) as [Hin Hout]; [left|].
    assert (∀ t', t' ∈ names →
      stat fs1 (pair_input input_path t') = stat fs2 (pair_input input_path t')
      ∧ stat fs1 (pair_output output_path t') = stat fs2 (pair_output output_path t'))
      as Hrest by (intros t' Ht'; apply Hsame; by right).
    cbn [html_loop]. unfold mbind, M_bind.
    rewrite !html_step_run. cbn [files trace].
    unfold pair_present.
    rewrite (same_exists fs1 fs2 _ Hin), (same_exists fs1 fs2 _ Hout),
      (same_read_result fs1 fs2 _ Hin), (same_read_result fs1 fs2 _ Hout).
    destruct (exists_ fs2 (pair_input input_path t)); cbn [andb];
      [destruct (exists_ fs2 (pair_output output_path t))|]; try apply (IH Hrest).
    destruct (read_result fs2 (pair_input input_path t)) as [e|b];
      [by exists (Exc (Error e))|].
    destruct (read_result fs2 (pair_output output_path t)) as [e|a];
      [by exists (Exc (Error e))|].
    apply (IH Hrest).
Qed.

(** Writing the same bytes to a path that both file systems take in the
    same way. *)
Lemma write_bytes_same p data fs1 fs2 tr :
  write_error fs1 p = write_error fs2 p →
  ∃ o tr',
    fst (write_bytes p data (World fs1 tr)) = o
    ∧ fst (write_bytes p data (World fs2 tr)) = o
    ∧ trace (snd (write_bytes p data (World fs1 tr))) = tr'
    ∧ trace (snd (write_bytes p data (World fs2 tr))) = tr'
    ∧ (o = Ret tt →
       files (snd (write_bytes p data (World fs1 tr))) !! p = Some (File data)
       ∧ files (snd (write_bytes p data (World fs2 tr))) !! p = Some (File data)).
Proof.
  intros Hw. rewrite !write_bytes_run. cbn [files trace]. rewrite Hw.
  destruct (write_error fs2 p) as [e|]; cbn [fst snd files trace].
  - exists (Exc (Error e)), tr. by repeat split.
  - exists (Ret tt), (tr ++ [Wrote p data]).
    repeat split; by rewrite lookup_insert_eq.
Qed.

(** C8: the two generators are deterministic.  Run on two file systems
    whose input and output folders hold the same pair files (and that take
    a write at the destination in the same way), each generator ends in the
    same way, prints the same lines and writes the same bytes: nothing of
    the output depends on the run. *)
Theorem generators_deterministic (pil : pillow)
    (input_folder output_folder comparison_output html_output : path)
    (fs1 fs2 : gmap path node) :
  same_pairs input_folder output_folder fs1 fs2 →
  write_error fs1 comparison_output = write_error fs2 comparison_output →
  write_error fs1 html_output = write_error fs2 html_output →
  same_run comparison_output
    (create_comparison_grid pil input_folder output_folder comparison_output
       (World fs1 []))
    (create_comparison_grid pil input_folder output_folder comparison_output
       (World fs2 []))
  ∧ same_run html_output
      (create_html_comparison input_folder output_folder html_output (World fs1 []))
      (create_html_comparison input_folder output_folder html_output (World fs2 [])).
Proof.
  intros Hsame Hwg Hwh. split.
  - unfold create_comparison_grid. destruct (load_fonts pil) as [[tf hf] lf].
    destruct (grid_loop_same pil input_folder output_folder lf fs1 fs2
                template_images Hsame (grid_start pil) []) as (o & tr & H1 & H2).
    unfold mbind, M_bind at 1 3. rewrite H1, H2.
    destruct o as [[cv y]|e]; [|by repeat split].
    unfold_M. rewrite !write_bytes_run. cbn [files trace]. rewrite Hwg.
    destruct (write_error fs2 comparison_output) as [e|]; [by repeat split|].
    cbn [files trace]. unfold same_run. cbn [fst snd files trace].
    split; [done|]. split; [done|]. intros _.
    exists (encode_png pil cv). by rewrite !lookup_insert_eq.
  - unfold create_html_comparison.
    destruct (html_loop_same input_folder output_folder fs1 fs2
                template_images Hsame Html.html_head []) as (o & H1 & H2).
    unfold mbind, M_bind at 1 3. rewrite H1, H2.
    destruct o as [html|e]; [|by repeat split].
    unfold write_text. unfold_M. rewrite !write_bytes_run. cbn [files trace].
    rewrite Hwh.
    destruct (write_error fs2 html_output) as [e|]; [by repeat split|].
    cbn [files trace]. unfold same_run. cbn [fst snd files trace].
    split; [reflexivity|]. split; [reflexivity|]. intros _.
    exists (list_byte_of_string (html +:+ Html.html_foot)).
    by rewrite !lookup_insert_eq.
Qed.

(** The three pairs, run before and after an earlier grid and document
    (and an unrelated file) are in place: the same outputs. *)
Lemma generators_deterministic_witness :
  same_pairs ["input"] ["output"] Sample.three_pairs Sample.three_pairs_later
  ∧ Sample.three_pairs ≠ Sample.three_pairs_later
  ∧ fst (create_comparison_grid Sample.pil ["input"] ["output"] ["comparison_grid.png"]
           (World Sample.three_pairs [])) = Ret tt
  ∧ fst (create_html_comparison ["input"] ["output"] ["comparison.html"]
           (World Sample.three_pairs [])) = Ret tt
  ∧ same_run ["comparison_grid.png"]
      (create_comparison_grid Sample.pil ["input"] ["output"] ["comparison_grid.png"]
         (World Sample.three_pairs []))
      (create_comparison_grid Sample.pil ["input"] ["output"] ["comparison_grid.png"]
         (World Sample.three_pairs_later []))
  ∧ same_run ["comparison.html"]
      (create_html_comparison ["input"] ["output"] ["comparison.html"]
         (World Sample.three_pairs []))
      (create_html_comparison ["input"] ["output"] ["comparison.html"]
         (World Sample.three_pairs_later [])).
Proof.
  assert (same_pairs ["input"] ["output"] Sample.three_pairs Sample.three_pairs_later)
    as Hsame.
  { intros t Hin. unfold template_images in Hin.
    repeat (apply elem_of_cons in Hin as [->|Hin];
            [split; vm_compute; reflexivity|]).
    by apply elem_of_nil in Hin. }
  split; [exact Hsame|].
  split.
  { intros Heq.
    assert (Sample.three_pairs !! ["comparison.html"]
            = Sample.three_pairs_later !! ["comparison.html"]) as H
      by (by rewrite Heq).
    vm_compute in H. discriminate H. }
  split; [vm_compute; reflexivity|]. split; [vm_compute; reflexivity|].
  apply (generators_deterministic Sample.pil ["input"] ["output"]
           ["comparison_grid.png"] ["comparison.html"]
           Sample.three_pairs Sample.three_pairs_later Hsame);
    vm_compute; reflexivity.
Defined.

(** * Further properties of the two tools *)

Ltac conjs := repeat match goal with |- _ ∧ _ => split end.

(** ** The background remover: models, failures, what is left untouched *)

(** X1: Batch mode predicts with the model given to [-m]: the session opened
    for it is the one every file goes through. *)
Theorem batch_model_used (lib : rembg) (a : args) (fs : gmap path node) :
  is_dir fs (arg_input a) = true →
  Forall (λ m, m = arg_model a)
         (inferences (trace (snd (run lib a (World fs []))))).
Proof.
  intros Hdir. unfold run. pose proof (main_run lib a (World fs [])) as Hmain.
  cbn zeta in Hmain. cbn [files trace] in Hmain.
  unfold is_dir in Hdir.
  destruct (stat fs (arg_input a)) as [[b| |]|]; try done.
  rewrite Hmain, remove_background_from_folder_run. cbn [files trace].
  destruct (mkdir_rev fs (rev (arg_output a))) as [e|fs']; [by constructor|].
  destruct (glob_png fs' (arg_input a)) as [|f rest]; [by constructor|].
  cbn zeta. destruct (load_model lib (arg_model a)); [|by constructor].
  match goal with |- context [process_and_report lib ?s ?o ?fl ?w1] =>
    destruct (process_and_report_run lib s o fl w1) as (t & fs'' & -> & _ & Hi & _) end.
  cbn [fst snd trace app].
  change (inferences (Print (MsgFound (length (f :: rest)))
                      :: Print (MsgModel (arg_model a)) :: Print MsgRule :: t))
    with (inferences t).
  exact Hi.
Qed.

Lemma batch_model_used_witness :
  is_dir Sample.fs ["dogs"] = true
  ∧ inferences (trace (snd (run Sample.lib (Args ["dogs"] ["out"] Silueta)
                               (World Sample.fs []))))
    = [Silueta; Silueta; Silueta].
Proof.
  split; [reflexivity|].
  pose proof (batch_model_used Sample.lib (Args ["dogs"] ["out"] Silueta) Sample.fs
                eq_refl) as H.
  revert H. vm_compute. intros H.
  repeat (apply Forall_cons in H as [-> H]). reflexivity.
Defined.

(** X2: [remove_background_from_file] never raises.  It returns [True] exactly
    when reading the input, the prediction and writing the output all
    succeed, and then the output path holds the bytes the model returned
    for the bytes of the input; in every other case it returns [False] and
    leaves the file system as it was. *)
Theorem remove_background_from_file_total (lib : rembg)
    (input_path output_path : path) (model : model_id) (w : world) :
  ∃ (ok : bool) (w' : world),
    remove_background_from_file lib input_path output_path model w = (Ret ok, w')
    ∧ (ok = false → files w' = files w)
    ∧ (ok = true →
       ∃ input_data output_data,
         read_result (files w) input_path = inr input_data
         ∧ load_model lib U2net = true
         ∧ segment lib U2net input_data = Some output_data
         ∧ write_error (files w) output_path = None
         ∧ files w' = <[output_path := File output_data]> (files w))
    ∧ (ok = true ↔ failed (single_file_result lib (files w) input_path output_path)
                   = false).
Proof.
  destruct (remove_background_from_file_run lib input_path output_path model w)
    as (t & Hrun & _).
  eexists _, _. split; [exact Hrun|]. cbn [files].
  unfold single_file_result, transform.
  destruct (read_result (files w) input_path) as [e|d]; cbn.
  { conjs; done. }
  destruct (load_model lib U2net); cbn.
  2: { conjs; done. }
  destruct (segment lib U2net d) as [o|] eqn:Hseg; cbn.
  2: { conjs; done. }
  destruct (write_error (files w) output_path) as [e|]; cbn.
  { conjs; done. }
  conjs; try done. intros _. exists d, o. conjs; done.
Qed.

(** X3: A folder without PNG files: the run ends normally after creating the
    output folder, prints the notice, and never opens a session, so that
    it does not matter whether the model could be loaded. *)
Theorem empty_folder_batch (lib : rembg) (input_folder output_folder : path)
    (model : model_id) (fs fs' : gmap path node) :
  mkdir_rev fs (rev output_folder) = inr fs' →
  glob_png fs' input_folder = [] →
  remove_background_from_folder lib input_folder output_folder model (World fs [])
    = (Ret tt, World fs' [Print (MsgNoPngFound input_folder)]).
Proof.
  intros Hmkdir Hglob. rewrite remove_background_from_folder_run.
  cbn [files trace]. by rewrite Hmkdir, Hglob.
Qed.

Lemma empty_folder_batch_witness :
  let unloadable := Rembg (λ _, false) (λ _ _, None) in
  remove_background_from_folder unloadable ["empty"] ["out"] Birefnet_general
    (World Sample.fs [])
  = (Ret tt, World (<[["out"] := Dir]> Sample.fs) [Print (MsgNoPngFound ["empty"])]).
Proof.
  apply (empty_folder_batch (Rembg (λ _, false) (λ _ _, None)) ["empty"] ["out"]
           Birefnet_general Sample.fs (<[["out"] := Dir]> Sample.fs));
    reflexivity.
Defined.

(** X4: An input that [main] rejects costs nothing: one line is printed, the
    status is 1, and the file system and the model are not touched. *)
Theorem rejected_input_untouched (lib : rembg) (a : args) (fs : gmap path node) :
  input_rejected fs (arg_input a) = true →
  ∃ line,
    run lib a (World fs []) = (1, World fs [Print line])
    ∧ line = match stat fs (arg_input a) with
             | None => MsgInputMissing (arg_input a)
             | Some (File _) => MsgNotPng
             | _ => MsgNeitherFileNorDir (arg_input a)
             end.
Proof.
  unfold input_rejected, exists_, is_file, is_dir. intros Hrej.
  unfold run. pose proof (main_run lib a (World fs [])) as Hmain.
  cbn zeta in Hmain. cbn [files trace] in Hmain.
  destruct (stat fs (arg_input a)) as [[b| |]|]; cbn in Hrej; try done.
  - rewrite orb_false_r in Hrej. apply negb_true_iff in Hrej.
    rewrite Hrej in Hmain. rewrite Hmain. by eexists.
  - rewrite Hmain. by eexists.
  - rewrite Hmain. by eexists.
Qed.

Lemma rejected_input_untouched_witness :
  input_rejected Sample.fs ["dogs"; "notes.txt"] = true
  ∧ run Sample.lib (Args ["dogs"; "notes.txt"] ["out"] U2net) (World Sample.fs [])
    = (1, World Sample.fs [Print MsgNotPng]).
Proof.
  split; [reflexivity|].
  destruct (rejected_input_untouched Sample.lib
              (Args ["dogs"; "notes.txt"] ["out"] U2net) Sample.fs eq_refl)
    as (line & Hrun & ->).
  exact Hrun.
Defined.

(** [mkdir(parents=True, exist_ok=True)] keeps every node there is, and
    leaves a directory at its path. *)
Lemma mkdir_rev_keeps rp : ∀ fs fs',
  mkdir_rev fs rp = inr fs' →
  ∀ p n, fs !! p = Some n → fs' !! p = Some n.
Proof.
  induction rp as [|nm rparent IH]; intros fs fs' Hmk p n Hp.
  - cbn in Hmk. by simplify_eq.
  - cbn [mkdir_rev] in Hmk.
    destruct (fs !! rev (nm :: rparent)) as [[b| |]|] eqn:Hhere; simplify_eq; [done|].
    assert (p ≠ rev (nm :: rparent)) as Hne by (intros ->; congruence).
    destruct (stat fs (rev rparent)) as [[b| |]|]; simplify_eq.
    + by rewrite lookup_insert_ne.
    + destruct (mkdir_rev fs rparent) as [e|fs1] eqn:Hrec; simplify_eq.
      rewrite lookup_insert_ne by done. by eapply IH.
Qed.

Lemma mkdir_rev_dir rp fs fs' :
  mkdir_rev fs rp = inr fs' → stat fs' (rev rp) = Some Dir.
Proof.
  destruct rp as [|nm rparent]; [done|]. cbn [mkdir_rev]. intros Hmk.
  assert (stat fs' (rev (nm :: rparent)) = fs' !! rev (nm :: rparent)) as ->.
  { unfold stat. destruct (rev (nm :: rparent)) eqn:Hrev; [|done].
    apply (f_equal length) in Hrev. rewrite length_rev in Hrev. done. }
  destruct (fs !! rev (nm :: rparent)) as [[b| |]|] eqn:Hhere; simplify_eq; [done|].
  destruct (stat fs (rev rparent)) as [[b| |]|]; simplify_eq.
  - by rewrite lookup_insert_eq.
  - destruct (mkdir_rev fs rparent) as [e|fs1]; simplify_eq.
    by rewrite lookup_insert_eq.
Qed.

Lemma after_transform_other fs output r p :
  p ≠ output → after_transform fs output r !! p = fs !! p.
Proof. intros Hne. destruct r as [e|d]; [done|]. cbn. by rewrite lookup_insert_ne. Qed.

(** The loop changes nothing but the output files. *)
Lemma process_png_files_frame lib s output_path png_files : ∀ counts w p,
  (∀ nm, p ≠ Path.join output_path nm) →
  files (snd (process_png_files lib s output_path png_files counts w)) !! p
    = files w !! p.
Proof.
  induction png_files as [|f rest IH]; intros counts w p Hp; [done|].
  cbn [process_png_files]. unfold mbind, M_bind.
  destruct (process_png_run lib s output_path f counts w) as (t & Hrun & _).
  rewrite Hrun. rewrite IH by done. cbn [files].
  apply after_transform_other. apply Hp.
Qed.

Lemma process_and_report_frame lib s output_path png_files w p :
  (∀ nm, p ≠ Path.join output_path nm) →
  files (snd (process_and_report lib s output_path png_files w)) !! p
    = files w !! p.
Proof.
  intros Hp.
  pose proof (process_png_files_frame lib s output_path png_files
                (0%nat, 0%nat) w p Hp) as Hframe.
  destruct (process_png_files_run lib s output_path png_files (0%nat, 0%nat) w)
    as (t & fs' & Hrun & _).
  rewrite Hrun in Hframe. cbn [snd files] in Hframe.
  unfold process_and_report. unfold_M. rewrite Hrun. exact Hframe.
Qed.

(** X5: A batch keeps the originals: whatever the run does, and however it
    ends, every file and folder that is not directly inside the output
    folder is afterwards what it was before. *)
Theorem batch_keeps_originals (lib : rembg) (input_folder output_folder : path)
    (model : model_id) (fs : gmap path node) (p : path) (n : node) :
  fs !! p = Some n →
  (∀ nm, p ≠ Path.join output_folder nm) →
  files (snd (remove_background_from_folder lib input_folder output_folder
                model (World fs []))) !! p = Some n.
Proof.
  intros Hp Hout. rewrite remove_background_from_folder_run. cbn [files trace].
  destruct (mkdir_rev fs (rev output_folder)) as [e|fs'] eqn:Hmk; [done|].
  pose proof (mkdir_rev_keeps _ _ _ Hmk p n Hp) as Hp'.
  destruct (glob_png fs' input_folder) as [|f rest]; [done|].
  cbn zeta. destruct (load_model lib model); [|done].
  by rewrite process_and_report_frame.
Qed.

Lemma batch_keeps_originals_witness :
  Sample.fs !! ["dogs"; "rex.png"] = Some (File [Byte.x01; Byte.x02])
  ∧ files (snd (remove_background_from_folder Sample.lib ["dogs"] ["dogs"; "clean"]
                  U2net (World Sample.fs []))) !! ["dogs"; "rex.png"]
    = Some (File [Byte.x01; Byte.x02]).
Proof.
  split; [reflexivity|].
  apply (batch_keeps_originals Sample.lib ["dogs"] ["dogs"; "clean"] U2net Sample.fs);
    [reflexivity|].
  intros nm Heq. discriminate Heq.
Defined.

(** X6: A batch that ends normally leaves the output folder in place, as a
    directory, whether it was there before or not, and whether or not any
    file was processed. *)
Theorem batch_creates_output_folder (lib : rembg)
    (input_folder output_folder : path) (model : model_id)
    (fs : gmap path node) (w' : world) :
  remove_background_from_folder lib input_folder output_folder model (World fs [])
    = (Ret tt, w') →
  is_dir (files w') output_folder = true.
Proof.
  rewrite remove_background_from_folder_run. cbn [files trace].
  destruct (mkdir_rev fs (rev output_folder)) as [e|fs'] eqn:Hmk; [done|].
  apply mkdir_rev_dir in Hmk. rewrite rev_involutive in Hmk.
  assert (∀ w, (∀ p, (∀ nm, p ≠ Path.join output_folder nm) →
                     files w !! p = fs' !! p) →
               is_dir (files w) output_folder = true) as Hdir.
  { intros w Hw. unfold is_dir, stat in *.
    destruct output_folder as [|c rest]; [done|].
    rewrite Hw, Hmk; [done|].
    intros nm Heq. apply (f_equal length) in Heq.
    unfold Path.join in Heq. rewrite length_app in Heq. cbn in Heq. lia. }
  destruct (glob_png fs' input_folder) as [|f rest].
  { intros [= <-]. by apply Hdir. }
  cbn zeta. destruct (load_model lib model); [|done].
  intros Hrun. apply Hdir. intros p Hp.
  pose proof (process_and_report_frame lib (Session model) output_folder (f :: rest)
                (World fs' [Print (MsgFound (length (f :: rest)));
                            Print (MsgModel model); Print MsgRule]) p Hp) as Hframe.
  cbn [app] in Hrun. by rewrite Hrun in Hframe.
Qed.

Lemma batch_creates_output_folder_witness :
  is_dir Sample.fs ["out"; "clean"] = false
  ∧ ∃ w',
      remove_background_from_folder Sample.lib ["dogs"] ["out"; "clean"] U2net
        (World Sample.fs []) = (Ret tt, w')
      ∧ is_dir (files w') ["out"; "clean"] = true.
Proof.
  split; [reflexivity|].
  destruct (remove_background_from_folder Sample.lib ["dogs"] ["out"; "clean"] U2net
              (World Sample.fs [])) as [o w'] eqn:Hrun.
  assert (o = Ret tt) as ->
    by (apply (f_equal fst) in Hrun; vm_compute in Hrun; congruence).
  exists w'. split; [reflexivity|].
  exact (batch_creates_output_folder Sample.lib ["dogs"] ["out"; "clean"] U2net
           Sample.fs w' Hrun).
Defined.

(** ** Output names, and outputs as inputs *)

Lemma no_bg_name_split s : no_bg_name s = (s +:+ "_no_bg") +:+ ".png".
Proof. unfold no_bg_name. by rewrite string_app_assoc. Qed.

Lemma no_bg_stem_nonempty s : s +:+ "_no_bg" ≠ EmptyString.
Proof. by destruct s. Qed.

Lemma matches_png_suffix s : matches_png (s +:+ ".png") = true.
Proof.
  unfold matches_png, Str.ends_with. rewrite string_length_app.
  cbn [String.length].
  replace (String.length s + 4 - 4)%nat with (String.length s) by lia.
  rewrite substring_app_r.
  apply andb_true_iff. split; [apply Nat.leb_le; lia | reflexivity].
Qed.

Lemma name_join p nm : Path.name (Path.join p nm) = nm.
Proof. apply last_last. Qed.

(** What the listing of a folder holds: the entries directly inside it
    whose name ends in [.png]. *)
Lemma glob_png_spec fs folder f :
  f ∈ glob_png fs folder ↔
  is_Some (fs !! f)
  ∧ f = Path.join folder (Path.name f)
  ∧ matches_png (Path.name f) = true.
Proof.
  unfold glob_png. rewrite list_elem_of_filter, list_elem_of_In, in_map_iff.
  unfold is_png_child. rewrite andb_true_iff, bool_decide_eq_true.
  split.
  - intros [[Hchild Hpng] ([k v] & <- & Hin)].
    apply list_elem_of_In, elem_of_map_to_list in Hin. cbn [fst] in *.
    split; [by exists v | done].
  - intros ([v Hv] & Hchild & Hpng). split; [done|].
    exists (f, v). split; [done|]. by apply list_elem_of_In, elem_of_map_to_list.
Qed.

(** X7: Every derived name is itself a PNG name, with stem [<s>_no_bg]: an
    output written into a folder is listed among the PNG files of that
    folder, and a batch over it would write [<s>_no_bg_no_bg.png]. *)
Theorem outputs_are_inputs (fs : gmap path node) (folder : path) (s : string)
    (data : bytes) :
  let output := Path.join folder (no_bg_name s) in
  matches_png (no_bg_name s) = true
  ∧ Path.stem_of (no_bg_name s) = s +:+ "_no_bg"
  ∧ Path.suffix_of (no_bg_name s) = ".png"
  ∧ output ∈ glob_png (<[output := File data]> fs) folder
  ∧ batch_output folder output = Path.join folder (s +:+ "_no_bg_no_bg.png").
Proof.
  cbn zeta.
  assert (Path.stem_of (no_bg_name s) = s +:+ "_no_bg") as Hstem.
  { rewrite no_bg_name_split. apply stem_of_png, no_bg_stem_nonempty. }
  split; [rewrite no_bg_name_split; apply matches_png_suffix|].
  split; [exact Hstem|].
  split; [rewrite no_bg_name_split; apply suffix_of_png, no_bg_stem_nonempty|].
  split.
  - apply glob_png_spec. rewrite name_join.
    split; [by rewrite lookup_insert_eq|]. split; [done|].
    rewrite no_bg_name_split. apply matches_png_suffix.
  - unfold batch_output, Path.stem. rewrite name_join, Hstem.
    unfold no_bg_name. by rewrite string_app_assoc.
Qed.

(** ** The comparison builder: what it leaves untouched, the empty case *)

(** X8: The two generators write one file each and nothing else: however a run
    ends, every path other than the destination holds what it held. *)
Theorem generators_touch_only_destination (pil : pillow)
    (input_folder output_folder dest : path) (fs : gmap path node) (p : path) :
  p ≠ dest →
  files (snd (create_comparison_grid pil input_folder output_folder dest
                (World fs []))) !! p = fs !! p
  ∧ files (snd (create_html_comparison input_folder output_folder dest
                  (World fs []))) !! p = fs !! p.
Proof.
  intros Hne. split.
  - unfold create_comparison_grid. destruct (load_fonts pil) as [[tf hf] lf].
    destruct (grid_loop_same pil input_folder output_folder lf fs fs
                template_images (λ _ _, conj eq_refl eq_refl) (grid_start pil) [])
      as (o & tr & Hloop & _).
    unfold mbind, M_bind at 1. rewrite Hloop.
    destruct o as [[cv y]|e]; [|done].
    unfold_M. rewrite write_bytes_run. cbn [files trace].
    destruct (write_error fs dest); [done|]. cbn [snd files].
    by rewrite lookup_insert_ne.
  - unfold create_html_comparison.
    destruct (html_loop_same input_folder output_folder fs fs
                template_images (λ _ _, conj eq_refl eq_refl) Html.html_head [])
      as (o & Hloop & _).
    unfold mbind, M_bind at 1. rewrite Hloop.
    destruct o as [html|e]; [|done].
    unfold write_text. unfold_M. rewrite write_bytes_run. cbn [files trace].
    destruct (write_error fs dest); [done|]. cbn [snd files].
    by rewrite lookup_insert_ne.
Qed.

Lemma generators_touch_only_destination_witness :
  files (snd (create_comparison_grid Sample.pil ["input"] ["output"]
                ["comparison_grid.png"] (World Sample.three_pairs [])))
    !! ["input"; "border_collie_1.png"] = Some Sample.original
  ∧ files (snd (create_html_comparison ["input"] ["output"]
                  ["comparison.html"] (World Sample.three_pairs [])))
      !! ["output"; "border_collie_1_no_bg.png"] = Some Sample.processed.
Proof.
  split.
  - destruct (generators_touch_only_destination Sample.pil ["input"] ["output"]
                ["comparison_grid.png"] Sample.three_pairs
                ["input"; "border_collie_1.png"]) as [-> _]; [discriminate|].
    vm_compute. reflexivity.
  - destruct (generators_touch_only_destination Sample.pil ["input"] ["output"]
                ["comparison.html"] Sample.three_pairs
                ["output"; "border_collie_1_no_bg.png"]) as [_ ->]; [discriminate|].
    vm_compute. reflexivity.
Defined.

(** X9: With none of the five pairs present both generators still write their
    output, whatever else the folders hold: a canvas with the title and the
    two column headers only, after five warnings, and a document made of
    the head and the foot. *)
Theorem no_pairs_outputs (pil : pillow)
    (input_folder output_folder comparison_output html_output : path)
    (fs : gmap path node) :
  present_pairs fs input_folder output_folder template_images = [] →
  writable fs comparison_output = true →
  writable fs html_output = true →
  (∃ w' cv,
     create_comparison_grid pil input_folder output_folder comparison_output
       (World fs []) = (Ret tt, w')
     ∧ files w' !! comparison_output = Some (File (encode_png pil cv))
     ∧ cv = fst (grid_start pil)
     ∧ length (canvas_ops cv) = 3%nat
     ∧ printed (trace w') =
         map (pair_warning fs input_folder output_folder) template_images
         ++ [MsgGridSaved comparison_output])
  ∧ (∃ w',
       create_html_comparison input_folder output_folder html_output (World fs [])
         = (Ret tt, w')
       ∧ files w' !! html_output
         = Some (File (list_byte_of_string (Html.html_head +:+ Html.html_foot)))).
Proof.
  intros Hnone Hwg Hwh.
  assert (grid_inputs_ok pil fs input_folder output_folder template_images = true)
    as Hgrid by (unfold grid_inputs_ok; by rewrite Hnone).
  assert (html_inputs_ok fs input_folder output_folder template_images = true)
    as Hhtml by (unfold html_inputs_ok; by rewrite Hnone).
  split.
  - eexists _, (fst (grid_start pil)).
    split; [by apply create_comparison_grid_run|]. cbn [files trace app].
    assert (grid_canvas pil fs input_folder output_folder = fst (grid_start pil))
      as Hcv by (unfold grid_canvas, grid_rows; by rewrite Hnone).
    rewrite Hcv.
    split; [by rewrite lookup_insert_eq|]. split; [done|].
    split.
    + unfold grid_start. destruct (load_fonts pil) as [[tf hf] lf].
      cbn [fst]. by rewrite canvas_ops_draw.
    + rewrite printed_app, printed_prints. f_equal.
      apply map_ext_in. intros t Hin. unfold grid_line.
      destruct (pair_present fs input_folder output_folder t) eqn:Hpre; [|done].
      assert (t ∈ present_pairs fs input_folder output_folder template_images) as Habs
        by (apply list_elem_of_filter; split; [done | by apply list_elem_of_In]).
      rewrite Hnone in Habs. by apply elem_of_nil in Habs.
  - eexists. split; [by apply create_html_comparison_run|]. cbn [files].
    rewrite lookup_insert_eq. unfold html_document. by rewrite Hnone.
Qed.

Lemma no_pairs_outputs_witness :
  present_pairs Sample.fs ["input"] ["output"] template_images = []
  ∧ ∃ w',
      create_html_comparison ["input"] ["output"] ["comparison.html"]
        (World Sample.fs []) = (Ret tt, w')
      ∧ files w' !! ["comparison.html"]
        = Some (File (list_byte_of_string (Html.html_head +:+ Html.html_foot))).
Proof.
  split; [vm_compute; reflexivity|].
  destruct (no_pairs_outputs Sample.pil ["input"] ["output"]
              ["comparison_grid.png"] ["comparison.html"] Sample.fs)
    as (_ & w' & Hrun & Hfile).
  - vm_compute. reflexivity.
  - vm_compute. reflexivity.
  - vm_compute. reflexivity.
  - exists w'. split; [exact Hrun | exact Hfile].
Defined.

(** ** Payloads *)

Lemma b64encode_length_le n : ∀ data,
  (length data ≤ n)%nat →
  String.length (Base64.b64encode data) = (4 * ((length data + 2) / 3))%nat.
Proof.
  induction n as [n IH] using lt_wf_ind. intros data Hlen.
  destruct data as [|a [|b [|c rest]]]; [done| | |].
  - cbn [Base64.b64encode].
    by destruct (Base64.sextets a Byte.x00 Byte.x00) as [[[s0 s1] s2] s3].
  - cbn [Base64.b64encode].
    by destruct (Base64.sextets a b Byte.x00) as [[[s0 s1] s2] s3].
  - cbn [Base64.b64encode].
    destruct (Base64.sextets a b c) as [[[s0 s1] s2] s3].
    cbn [String.length length] in *.
    rewrite (IH (length rest)) by lia.
    replace (S (S (S (length rest))) + 2)%nat with (length rest + 2 + 1 * 3)%nat by lia.
    rewrite Nat.div_add by done. lia.
Qed.

(** X10: [img_to_base64] raises what reading the file raises and changes
    nothing; on a regular file of n bytes it returns 4 * ceil(n / 3)
    characters, all of them letters, digits, [+], [/] or [=]: a payload
    never holds a quote, an angle bracket or a space, and so cannot end the
    attribute it is written into. *)
Theorem img_to_base64_payload (img_path : path) (w : world) :
  match read_result (files w) img_path with
  | inl e => img_to_base64 img_path w = (Exc (Error e), w)
  | inr data =>
      ∃ payload,
        img_to_base64 img_path w = (Ret payload, w)
        ∧ String.length payload = (4 * ((length data + 2) / 3))%nat
        ∧ Base64.all_chars Base64.is_b64_char payload = true
        ∧ Str.occurrences Str.dquote payload = 0%nat
        ∧ Str.occurrences "<" payload = 0%nat
        ∧ Str.occurrences ">" payload = 0%nat
  end.
Proof.
  rewrite img_to_base64_run.
  destruct (read_result (files w) img_path) as [e|data]; [done|].
  exists (Base64.b64encode data). split; [done|].
  split; [by apply (b64encode_length_le (length data))|].
  split; [apply b64encode_chars|].
  assert (∀ c, Base64.is_b64_char c = false →
               Str.occurrences (String c EmptyString) (Base64.b64encode data) = 0%nat)
    as Hnone.
  { intros c Hc.
    rewrite <- (string_app_nil_r (Base64.b64encode data)).
    rewrite occurrences_skip; [done|].
    eapply all_chars_impl; [|apply b64encode_chars].
    intros x Hx. destruct (Ascii.eqb_spec c x) as [<-|]; [congruence | done]. }
  split; [|split]; by apply Hnone.
Qed.

(** ** Layout *)

(** X11: Every row of the grid has its two thumbnail boxes and the anchor of
    its label inside the canvas; but the canvas is 20 pixels short of five
    full rows: when all five pairs are present the slot of the fifth row
    ends at y = 1900, below the bottom edge at 1880, which leaves 10 pixels
    for its label. *)
Theorem rows_in_canvas (fs : gmap path node) (input_folder output_folder : path)
    (i : nat) (t : string) (y : Z) :
  grid_rows fs input_folder output_folder !! i = Some (t, y) →
  (i < 5)%nat
  ∧ 0 ≤ padding ∧ padding * 2 + img_width * 2 ≤ grid_width
  ∧ 0 ≤ y + padding ∧ y + padding + img_height ≤ grid_height
  ∧ y + padding + img_height + 10 < grid_height
  ∧ (i = 4%nat → y + row_pitch = grid_height + 20
                 ∧ grid_height - (y + padding + img_height + 10) = 10).
Proof.
  intros Hrow. unfold grid_rows in Hrow.
  apply place_rows_lookup in Hrow as [Hin ->].
  assert (i < 5)%nat as Hi.
  { apply lookup_lt_Some in Hin.
    pose proof (present_absent_length fs input_folder output_folder template_images)
      as Hlen.
    change (length template_images) with 5%nat in Hlen. lia. }
  change padding with 20. change img_width with 300. change img_height with 300.
  change grid_width with 660. change grid_height with 1880.
  change row_pitch with 360. change title_height with 60.
  change label_height with 40.
  split; [done|]. lia.
Qed.

Lemma rows_in_canvas_witness :
  grid_rows Sample.five_pairs ["input"] ["output"] !! 4%nat
    = Some ("siberian_husky_1.png", 1540)
  ∧ 1540 + row_pitch = grid_height + 20.
Proof.
  split; [vm_compute; reflexivity|].
  destruct (rows_in_canvas Sample.five_pairs ["input"] ["output"] 4
              "siberian_husky_1.png" 1540) as (_ & _ & _ & _ & _ & _ & Hlast).
  - vm_compute. reflexivity.
  - by destruct Hlast as [-> _].
Defined.

(** X12: A thumbnail that fits the 300 by 300 box is pasted inside its box,
    centred: the margins on either side differ by at most one pixel.  This
    holds for the 'before' image on the canvas and for the 'after' image on
    its checkered background. *)
Theorem thumbnails_centred (pil : pillow) (label_font : font) (t : string)
    (before_img after_img : image) (y_pos : Z) :
  0 ≤ width before_img ≤ img_width →
  0 ≤ height before_img ≤ img_height →
  0 ≤ width after_img ≤ img_width →
  0 ≤ height after_img ≤ img_height →
  ∃ bx by_ ax ay checker rest,
    row_ops pil label_font t before_img after_img y_pos
      = OpPaste before_img bx by_
        :: OpPasteCanvas checker (padding * 2 + img_width) (y_pos + padding)
        :: rest
    ∧ last (canvas_ops checker) = Some (OpPasteMasked after_img ax ay)
    ∧ canvas_size checker = (img_width, img_height)
    ∧ padding ≤ bx ∧ bx + width before_img ≤ padding + img_width
    ∧ 0 ≤ (padding + img_width - (bx + width before_img)) - (bx - padding) ≤ 1
    ∧ y_pos + padding ≤ by_
    ∧ by_ + height before_img ≤ y_pos + padding + img_height
    ∧ 0 ≤ (y_pos + padding + img_height - (by_ + height before_img))
          - (by_ - (y_pos + padding)) ≤ 1
    ∧ 0 ≤ ax ∧ ax + width after_img ≤ img_width
    ∧ 0 ≤ (img_width - (ax + width after_img)) - ax ≤ 1
    ∧ 0 ≤ ay ∧ ay + height after_img ≤ img_height
    ∧ 0 ≤ (img_height - (ay + height after_img)) - ay ≤ 1.
Proof.
  intros Hbw Hbh Haw Hah. unfold row_ops.
  eexists _, _, _, _, _, _. split; [reflexivity|].
  split.
  { destruct checker_background as [cw ch col ops]. cbn [draw canvas_ops].
    apply last_snoc. }
  split.
  { change checker_background
      with (foldl (λ bg '(i, j),
                     draw bg (OpRectangle i j (i + checker_size) (j + checker_size)
                                          (Some "#E0E0E0") None 1))
                  (image_new img_width img_height "white") checker_cells).
    generalize checker_cells. intros cells.
    assert (∀ bg, canvas_size
                    (foldl (λ bg '(i, j),
                              draw bg (OpRectangle i j (i + checker_size)
                                         (j + checker_size) (Some "#E0E0E0") None 1))
                           bg cells) = canvas_size bg) as Hsize.
    { induction cells as [|[i j] cells IH]; intros bg; [done|].
      cbn [foldl]. rewrite IH. by destruct bg. }
    match goal with |- canvas_size (draw ?c _) = _ =>
      replace (canvas_size (draw c _)) with (canvas_size c) by (by destruct c) end.
    by rewrite Hsize. }
  unfold img_width, img_height, padding in *.
  pose proof (Z.div_mod (300 - width before_img) 2 ltac:(lia)).
  pose proof (Z.mod_pos_bound (300 - width before_img) 2 ltac:(lia)).
  pose proof (Z.div_mod (300 - height before_img) 2 ltac:(lia)).
  pose proof (Z.mod_pos_bound (300 - height before_img) 2 ltac:(lia)).
  pose proof (Z.div_mod (300 - width after_img) 2 ltac:(lia)).
  pose proof (Z.mod_pos_bound (300 - width after_img) 2 ltac:(lia)).
  pose proof (Z.div_mod (300 - height after_img) 2 ltac:(lia)).
  pose proof (Z.mod_pos_bound (300 - height after_img) 2 ltac:(lia)).
  repeat split; lia.
Qed.

Lemma thumbnails_centred_witness :
  ∃ bx by_ ax ay checker rest,
    (bx, by_, ax, ay) = (20, 170, 74, 0)
    ∧ row_ops Sample.pil DefaultFont "border_collie_1.png"
              (Image 300 200 "RGB" []) (Image 151 300 "RGBA" []) 100
      = OpPaste (Image 300 200 "RGB" []) bx by_ :: OpPasteCanvas checker 340 120 :: rest
    ∧ last (canvas_ops checker) = Some (OpPasteMasked (Image 151 300 "RGBA" []) ax ay).
Proof.
  destruct (thumbnails_centred Sample.pil DefaultFont "border_collie_1.png"
              (Image 300 200 "RGB" []) (Image 151 300 "RGBA" []) 100)
    as (bx & by_ & ax & ay & checker & rest & Hrow & Hlast & _);
    [unfold img_width, img_height; cbn; lia ..|].
  exists bx, by_, ax, ay, checker, rest.
  split; [|split; [exact Hrow | exact Hlast]].
  unfold row_ops in Hrow. injection Hrow as Hbx Hby Hchecker _.
  rewrite <- Hchecker in Hlast. vm_compute in Hlast, Hbx, Hby.
  injection Hlast as Hax Hay. congruence.
Defined.

(** ** Labels *)

Lemma title_from_length prev s :
  String.length (Str.title_from prev s) = String.length s.
Proof.
  revert prev. induction s as [|c s IH]; intros prev; [done|].
  cbn. by rewrite IH.
Qed.

Lemma replace_char_length a b s :
  String.length (Str.replace_char a b s) = String.length s.
Proof. induction s as [|c s IH]; [done|]. cbn. by rewrite IH. Qed.

Lemma case_keeps_other_chars c :
  c ≠ "_"%char → Str.lower_ascii c ≠ "_"%char ∧ Str.upper_ascii c ≠ "_"%char.
Proof.
  destruct c as [[] [] [] [] [] [] [] []]; intros Hc;
    split; vm_compute; congruence.
Qed.

Lemma title_from_no_underscore prev s :
  Base64.all_chars (λ x, negb (Ascii.eqb "_" x)) s = true →
  Base64.all_chars (λ x, negb (Ascii.eqb "_" x)) (Str.title_from prev s) = true.
Proof.
  revert prev. induction s as [|c s IH]; intros prev Hs; [done|].
  cbn [Base64.all_chars Str.title_from] in *.
  apply andb_true_iff in Hs as [Hc Hs]. rewrite IH by done.
  apply negb_true_iff, Ascii.eqb_neq in Hc.
  destruct (case_keeps_other_chars c) as [Hl Hu]; [congruence|].
  rewrite andb_true_r. apply negb_true_iff, Ascii.eqb_neq.
  destruct prev; congruence.
Qed.

Lemma replace_underscores s :
  Base64.all_chars (λ x, negb (Ascii.eqb "_" x)) (Str.replace_char "_" " " s) = true.
Proof.
  induction s as [|c s IH]; [done|]. cbn [Base64.all_chars Str.replace_char].
  rewrite IH, andb_true_r.
  destruct (Ascii.eqb_spec c "_") as [->|Hne]; [reflexivity|].
  apply negb_true_iff, Ascii.eqb_neq. congruence.
Qed.

(** X14: The label of each of the five pairs of the generators (their
    names are ASCII text): it is as long as the stem of the file name, has
    no underscore left, starts with no lowercase letter, and is the stem
    with spaces for underscores and each word capitalised. *)
Theorem pair_label_shape (template_name : string) :
  template_name ∈ template_images →
  Str.is_ascii template_name = true
  ∧ String.length (pair_label template_name)
    = String.length (Path.stem [template_name])
  ∧ Base64.all_chars (λ x, negb (Ascii.eqb "_" x)) (pair_label template_name) = true
  ∧ match pair_label template_name with
    | EmptyString => True
    | String c _ => Str.upper_ascii c = c
    end
  ∧ pair_label template_name
    ∈ ["Black Cocker Spaniel 1"; "Border Collie 1"; "German Sheperd 1";
       "Golden Retriever 1"; "Siberian Husky 1"].
Proof.
  intros Hin.
  split.
  { unfold template_images in Hin.
    repeat (apply elem_of_cons in Hin as [->|Hin]; [reflexivity|]).
    by apply elem_of_nil in Hin. }
  unfold pair_label, Str.title.
  split; [by rewrite title_from_length, replace_char_length|].
  split; [apply title_from_no_underscore, replace_underscores|].
  split.
  { destruct (Str.replace_char "_" " " (Path.stem [template_name])) as [|c s];
      [done|].
    cbn [Str.title_from].
    destruct c as [[] [] [] [] [] [] [] []]; reflexivity. }
  unfold template_images in Hin.
  repeat (apply elem_of_cons in Hin as [->|Hin];
          [match goal with |- ?x ∈ _ =>
             let y := eval vm_compute in x in change x with y end;
           rewrite !elem_of_cons; tauto|]).
  by apply elem_of_nil in Hin.
Qed.

(** The second pair is labelled Border Collie 1. *)
Lemma pair_label_shape_witness :
  "border_collie_1.png" ∈ template_images
  ∧ pair_label "border_collie_1.png" = "Border Collie 1"
  ∧ String.length (pair_label "border_collie_1.png")
    = String.length (Path.stem ["border_collie_1.png"]).
Proof.
  assert ("border_collie_1.png" ∈ template_images) as Hin by (right; left).
  split; [exact Hin|]. split; [reflexivity|].
  by destruct (pair_label_shape "border_collie_1.png" Hin) as (_ & Hlen & _).
Defined.

(** ** Files that cannot be used *)

Lemma grid_loop_raises pil input_path output_path label_font fs names :
  grid_inputs_ok pil fs input_path output_path names = false →
  ∀ st tr, ∃ e tr',
    grid_loop pil input_path output_path label_font names st (World fs tr)
      = (Exc (Error e), World fs tr').
Proof.
  induction names as [|t names IH]; intros Hbad st tr; [done|].
  destruct st as [cv y]. cbn [grid_loop]. unfold mbind, M_bind.
  rewrite grid_step_run. cbn [files trace].
  unfold grid_inputs_ok in Hbad. rewrite present_pairs_cons in Hbad.
  destruct (pair_present fs input_path output_path t); [|by apply IH].
  cbn [forallb] in Hbad. unfold pair_images in Hbad.
  destruct (load_image pil fs (pair_input input_path t)) as [e|b]; [by eexists _, _|].
  destruct (load_image pil fs (pair_output output_path t)) as [e|a]; [by eexists _, _|].
  cbn zeta in Hbad.
  destruct (usable_as_mask (thumbnail pil a (img_width, img_height)));
    [|by eexists _, _].
  cbn [andb] in Hbad. by apply IH.
Qed.

Lemma html_loop_raises input_path output_path fs names :
  html_inputs_ok fs input_path output_path names = false →
  ∀ html tr, ∃ e,
    html_loop input_path output_path names html (World fs tr)
      = (Exc (Error e), World fs tr).
Proof.
  induction names as [|t names IH]; intros Hbad html tr; [done|].
  cbn [html_loop]. unfold mbind, M_bind.
  rewrite html_step_run. cbn [files trace].
  unfold html_inputs_ok in Hbad. rewrite present_pairs_cons in Hbad.
  destruct (pair_present fs input_path output_path t); [|by apply IH].
  cbn [forallb] in Hbad. unfold pair_payloads in Hbad.
  destruct (read_result fs (pair_input input_path t)) as [e|b]; [by eexists|].
  destruct (read_result fs (pair_output output_path t)) as [e|a]; [by eexists|].
  cbn [andb] in Hbad. by apply IH.
Qed.

(** The grid loop writes nothing. *)
Lemma grid_loop_writes_nothing pil input_path output_path label_font fs names :
  ∀ st tr o w',
    grid_loop pil input_path output_path label_font names st (World fs tr) = (o, w') →
    files w' = fs ∧ written (trace w') = written tr.
Proof.
  induction names as [|t names IH]; intros [cv y] tr o w' Hrun.
  - cbn in Hrun. unfold_M. by simplify_eq.
  - cbn [grid_loop] in Hrun. unfold mbind, M_bind in Hrun.
    rewrite grid_step_run in Hrun. cbn [files trace] in Hrun.
    destruct (pair_present fs input_path output_path t).
    + destruct (load_image pil fs (pair_input input_path t)); [by simplify_eq|].
      destruct (load_image pil fs (pair_output output_path t)) as [e|a];
        [by simplify_eq|].
      destruct (usable_as_mask (thumbnail pil a (img_width, img_height)));
        [|by simplify_eq].
      apply IH in Hrun as [-> ->]. split; [done|].
      rewrite written_app. cbn. by rewrite app_nil_r.
    + apply IH in Hrun as [-> ->]. split; [done|].
      rewrite written_app. cbn. by rewrite app_nil_r.
Qed.

(** X15: Neither generator catches what a pair raises.  One pair that is
    present but has a file that is no image or an 'after' image that
    cannot be its own paste mask (for the grid), or a file that cannot be
    read as a regular file (for the document), ends the run with that
    exception: nothing is saved, not even for the pairs that are in order,
    and the file system is as it was. *)
Theorem unusable_pair_aborts (pil : pillow)
    (input_folder output_folder dest : path) (fs : gmap path node) :
  (grid_inputs_ok pil fs input_folder output_folder template_images = false →
   ∃ e w',
     create_comparison_grid pil input_folder output_folder dest (World fs [])
       = (Exc (Error e), w')
     ∧ files w' = fs ∧ written (trace w') = [])
  ∧ (html_inputs_ok fs input_folder output_folder template_images = false →
     ∃ e w',
       create_html_comparison input_folder output_folder dest (World fs [])
         = (Exc (Error e), w')
       ∧ files w' = fs ∧ written (trace w') = []).
Proof.
  split; intros Hbad.
  - unfold create_comparison_grid. destruct (load_fonts pil) as [[tf hf] lf].
    destruct (grid_loop_raises pil input_folder output_folder lf fs
                template_images Hbad (grid_start pil) []) as (e & tr & Hloop).
    destruct (grid_loop_writes_nothing _ _ _ _ _ _ _ _ _ _ Hloop) as [_ Hw].
    unfold mbind, M_bind at 1. rewrite Hloop. by exists e, (World fs tr).
  - unfold create_html_comparison.
    destruct (html_loop_raises input_folder output_folder fs
                template_images Hbad Html.html_head []) as (e & Hloop).
    unfold mbind, M_bind at 1. rewrite Hloop. by exists e, (World fs []).
Qed.

(** A pair of empty files: the grid generator stops at it; the HTML
    generator, which does not decode, embeds it. *)
Lemma unusable_pair_aborts_witness :
  grid_inputs_ok Sample.pil Sample.empty_pair ["input"] ["output"] template_images
    = false
  ∧ fst (create_comparison_grid Sample.pil ["input"] ["output"]
           ["comparison_grid.png"] (World Sample.empty_pair []))
    = Exc (Error UnidentifiedImageError)
  ∧ ∃ e w',
      create_comparison_grid Sample.pil ["input"] ["output"]
        ["comparison_grid.png"] (World Sample.empty_pair [])
      = (Exc (Error e), w')
      ∧ files w' = Sample.empty_pair ∧ written (trace w') = [].
Proof.
  split; [vm_compute; reflexivity|]. split; [vm_compute; reflexivity|].
  apply (unusable_pair_aborts Sample.pil ["input"] ["output"]
           ["comparison_grid.png"] Sample.empty_pair).
  vm_compute. reflexivity.
Defined.
